(** * k8s-sigstore-attestor: the image-signature attestation engine

    A shallow embedding of the Go packages [sigstore] and [sigstorecache]
    of the SPIRE k8s workload attestor, and the properties of them that the
    design document states.

    - [Go]: the few pieces of Go's semantics the code relies on (errors,
      run-time panics, nil-able slices, [container/list]).
    - [Lib]: the types and functions the packages import (net/url,
      crypto/x509, encoding/json, go-containerregistry, cosign, rekor).
    - [SigstoreCache]: package sigstorecache, the bounded recency cache.
    - [Sigstore]: package sigstore, the attestation engine.
    - [Specified]: statements of the design document that differ from the
      code, as the document words them.
    - [SigstorePayload]: the first version of package sigstore, which
      worked on cosign signed payloads.
    - [Samples]: concrete inputs and stand-ins for the imported functions,
      used where a statement is evaluated on an example. *)

From Stdlib Require Import ZArith String Ascii List Lia DecimalString.
From stdpp Require Import base tactics option list gmap strings.

Local Open Scope Z_scope.

(** ** Go prelude *)
Module Go.

(** An [error] value is modelled by its message; [nil] is [None] of
    [option error]. *)
Definition error : Type := string.
Definition errors_New (message : string) : error := message.

(** The usual [(T, error)] result of a library call: a value or an error. *)
Inductive result (A : Type) : Type :=
| Ok (a : A)
| Err (e : error).
Arguments Ok {A} a.
Arguments Err {A} e.

(** A call either returns or stops the goroutine with a run-time panic. *)
Inductive outcome (A : Type) : Type :=
| Returns (a : A)
| Panics (why : string).
Arguments Returns {A} a.
Arguments Panics {A} why.

Definition outcome_bind {A B} (f : A -> outcome B) (m : outcome A) : outcome B :=
  match m with
  | Returns a => f a
  | Panics why => Panics why
  end.

#[export] Instance outcome_mret : MRet outcome := @Returns.
#[export] Instance outcome_mbind : MBind outcome := @outcome_bind.

(** A slice is [nil] ([None]) or holds elements; [len] of both the nil
    and the empty slice is 0, but only the former compares equal to nil. *)
Definition slice (A : Type) : Type := option (list A).
Definition elems {A} (s : slice A) : list A := default [] s.
Definition len {A} (s : slice A) : nat := length (elems s).
(** [append(s, xs...)]: appending nothing to nil leaves nil. *)
Definition append {A} (s : slice A) (xs : list A) : slice A :=
  match s, xs with
  | None, [] => None
  | _, _ => Some (elems s ++ xs)
  end.
(** [s[0]]: indexing past the end panics. *)
Definition index0 {A} (s : slice A) : outcome A :=
  match elems s with
  | x :: _ => Returns x
  | [] => Panics "index out of range [0] with length 0"
  end.

Definition nil_dereference : string :=
  "invalid memory address or nil pointer dereference".

(** [fmt.Sprintf("%d", n)] *)
Definition Sprintf_d (n : Z) : string := NilZero.string_of_int (Z.to_int n).

(** [container/list]: the doubly linked list is the sequence of its
    values, front first; an [*Element] of it is a position together with
    the value stored there. *)
Module list_.
Section List.
Context {A : Type}.
Definition Element : Type := nat * A.
Definition Len (l : list A) : Z := Z.of_nat (length l).
Definition Back (l : list A) : option Element :=
  (fun x => (pred (length l), x)) <$> last l.
Definition MoveToFront (l : list A) (e : Element) : list A :=
  e.2 :: delete e.1 l.
Definition Remove (l : list A) (e : Element) : list A := delete e.1 l.
Definition PushFront (l : list A) (v : A) : list A := v :: l.
End List.
Arguments Element : clear implicits.
End list_.

End Go.
Export Go.

(** ** Imported packages *)
Module Lib.

(** [interface{}] as encoding/json fills it. *)
#[local] Set Warnings "-register-all".
Inductive any : Type :=
| AnyNil
| AnyBool (b : bool)
| AnyFloat64 (literal : string)
| AnyString (s : string)
| AnySlice (l : list any)
| AnyMap (m : list (string * any)).

(** [net/url.URL] (the user is kept as its name only). *)
Record URL : Type := mkURL {
  Scheme : string;
  User : option string;
  Host : string;
  Path : string;
  RawQuery : string;
  Fragment : string;
}.

(** [crypto/x509.Certificate]: the two subject alternative name lists. *)
Record Certificate : Type := mkCertificate {
  EmailAddresses : slice string;
  URIs : slice URL;
}.

(** sigstore's [payload.SimpleContainerImage]: the [optional] map; the
    [critical] part is never read. *)
Record SimpleContainerImage : Type := mkSimpleContainerImage {
  Optional : option (gmap string any);
}.

(** go-containerregistry's [name.Reference] is a [name.Tag] or a
    [name.Digest]; [String()] gives back the text it was parsed from. *)
Record name_Tag : Type := mkTag { TagStr : string; tag_original : string }.
Record name_Digest : Type := mkDigest { DigestStr : string; digest_original : string }.
Inductive Reference : Type :=
| RefTag (t : name_Tag)
| RefDigest (d : name_Digest).
Definition Reference_String (ref : Reference) : string :=
  match ref with
  | RefTag t => tag_original t
  | RefDigest d => digest_original d
  end.

(** [v1.Hash] and [remote.Descriptor]. *)
Record Hash : Type := mkHash { Algorithm : string; Hex : string }.
Definition Hash_String (h : Hash) : string := Algorithm h +:+ ":" +:+ Hex h.
Record Descriptor : Type := mkDescriptor { Manifest : slice Byte.byte }.

(** cosign's [oci.Bundle], and [oci.Signature] as the results of the three
    methods the engine calls. *)
Record BundlePayload : Type := mkBundlePayload {
  Body : any;
  IntegratedTime : Z;
  LogIndex : Z;
  LogID : string;
}.
Record oci_Bundle : Type := mkBundle {
  SignedEntryTimestamp : list Byte.byte;
  bundle_Payload : BundlePayload;
}.
Record Signature : Type := mkSignature {
  Payload : result (list Byte.byte);
  Cert : result (option Certificate);
  Bundle : result (option oci_Bundle);
}.

(** rekor's transport configuration, which determines the client. *)
Record TransportConfig : Type := mkTransportConfig {
  tc_Host : string;
  tc_BasePath : string;
  tc_Schemes : list string;
}.
Definition WithBasePath (cfg : TransportConfig) (basePath : string) : TransportConfig :=
  {| tc_Host := tc_Host cfg; tc_BasePath := basePath; tc_Schemes := tc_Schemes cfg |}.
Definition WithHost (cfg : TransportConfig) (host : string) : TransportConfig :=
  {| tc_Host := host; tc_BasePath := tc_BasePath cfg; tc_Schemes := tc_Schemes cfg |}.

(** The rekor log entry body the engine decodes. *)
Record BundleSignature : Type := mkBundleSignature {
  Content : string;
  Format : string;
  PublicKey : gmap string string;
}.
Record BundleSpec : Type := mkBundleSpec {
  Data : gmap string (gmap string string);
  spec_Signature : BundleSignature;
}.
Record BundleBody : Type := mkBundleBody {
  APIVersion : string;
  Kind : string;
  Spec : BundleSpec;
}.

(** The first version's payload schema. *)
Record Subject : Type := mkSubject { subject_Subject : string }.
Record Optional_ : Type := mkOptional { optional_Optional : Subject }.

(** cosign's [CheckOpts]: the two options the engine sets, over the type
    of certificate pools. *)
Record CheckOpts (CertPool : Type) : Type := mkCheckOpts {
  RekorClient : TransportConfig;
  RootCerts : CertPool;
}.
Arguments mkCheckOpts {CertPool}.
Arguments RekorClient {CertPool}.
Arguments RootCerts {CertPool}.

(** The imported functions and constants, none of which is part of this
    repository. *)
Class Imports : Type := {
  CertPool : Type;
  fulcio_GetRoots : CertPool;
  cosign_VerifyImageSignatures :
    Reference -> CheckOpts CertPool -> slice (option Signature) * bool * option error;
  remote_Get : Reference -> result Descriptor;
  name_ParseReference : string -> result Reference;
  v1_SHA256 : list Byte.byte -> result Hash;
  url_Parse : string -> result URL;
  URL_String : URL -> string;
  json_Unmarshal_SimpleContainerImage : list Byte.byte -> result SimpleContainerImage;
  json_Unmarshal_BundleBody : list Byte.byte -> result BundleBody;
  json_Unmarshal_Optionals : string -> result (slice Optional_);
  json_Marshal_SimpleContainerImages : slice SimpleContainerImage -> result string;
  base64_DecodeString : string -> result (list Byte.byte);
  rekor_DefaultSchemes0 : string;
  rekor_DefaultHost : string;
  rekor_DefaultBasePath : string;
  rekor_DefaultTransportConfig : TransportConfig;
}.

(** k8s [corev1.ContainerStatus] *)
Record ContainerStatus : Type := mkContainerStatus {
  ImageID : string;
  ContainerID : string;
}.

End Lib.
Export Lib.

(** ** Package sigstorecache *)
Module SigstoreCache.

Section Cache.
(** The cache never inspects [Item.Value]: it is [[]oci.Signature] in
    the package, and the attestor stores its selector records. *)
Context {V : Type}.

Record Item : Type := mkItem { Key : string; Value : V }.

Record Cacheimpl : Type := mkCache { size : Z; items : list Item }.

Definition NewCache (maximumAmountCache : Z) : Cacheimpl :=
  {| size := maximumAmountCache; items := [] |}.

(** The first element, from the front, whose key is [key]. *)
Definition getElement (c : Cacheimpl) (key : string) : option (list_.Element Item) :=
  list_find (fun i => Key i = key) (items c).

Definition GetSignature (c : Cacheimpl) (key : string) : option Item * Cacheimpl :=
  match getElement c key with
  | None => (None, c)
  | Some e =>
      (Some e.2, {| size := size c; items := list_.MoveToFront (items c) e |})
  end.

Definition PutSignature (c : Cacheimpl) (i : Item) : outcome Cacheimpl :=
  match getElement c (Key i) with
  | Some e =>
      Returns {| size := size c; items := list_.MoveToFront (items c) e |}
  | None =>
      l ← (if list_.Len (items c) =? size c
           then match list_.Back (items c) with
                | Some e => Returns (list_.Remove (items c) e)
                | None => Panics nil_dereference
                end
           else Returns (items c));
      Returns {| size := size c; items := list_.PushFront l i |}
  end.

(** Sequences of calls on one cache. *)
Inductive call : Type :=
| CallGet (key : string)
| CallPut (i : Item).

Definition do_call (c : Cacheimpl) (op : call) : outcome Cacheimpl :=
  match op with
  | CallGet key => Returns (GetSignature c key).2
  | CallPut i => PutSignature c i
  end.

Fixpoint run (c : Cacheimpl) (ops : list call) : outcome Cacheimpl :=
  match ops with
  | [] => Returns c
  | op :: ops' => c' ← do_call c op; run c' ops'
  end.

Fixpoint PutAll (c : Cacheimpl) (its : list Item) : outcome Cacheimpl :=
  match its with
  | [] => Returns c
  | i :: its' => c' ← PutSignature c i; PutAll c' its'
  end.

Fixpoint GetAll (c : Cacheimpl) (keys : list string) : list (option Item) :=
  match keys with
  | [] => []
  | k :: keys' => (GetSignature c k).1 :: GetAll (GetSignature c k).2 keys'
  end.

Definition put_keys (ops : list call) : list string :=
  omap (fun op => match op with CallPut i => Some (Key i) | CallGet _ => None end) ops.

(** The entry stored under [key], if any. *)
Definition cached (l : list Item) (key : string) : option Item :=
  snd <$> list_find (fun i => Key i = key) l.

(** The recency list holds at most [size] entries. *)
Definition within_capacity (c : Cacheimpl) : Prop := list_.Len (items c) <= size c.

End Cache.
Arguments Item : clear implicits.
Arguments Cacheimpl : clear implicits.
Arguments call : clear implicits.

End SigstoreCache.

(** ** Package sigstore *)
Module Sigstore.
Import SigstoreCache.

(** Signature Verification Selector *)
Definition signatureVerifiedSelector : string := "sigstore-validation:passed".

Record SelectorsFromSignatures : Type := mkSelectors {
  sel_Subject : string;
  sel_Content : string;
  sel_LogID : string;
  sel_IntegratedTime : string;
  Verified : bool;
}.

(** The zero value of the struct. *)
Definition noSelectors : SelectorsFromSignatures :=
  {| sel_Subject := ""; sel_Content := ""; sel_LogID := "";
     sel_IntegratedTime := ""; Verified := false |}.

(** [certSubject] rewrites the URI with a regular expression: at the start
    of the text, any number of '/' and then a group, named email, that holds
    the rest of the line; the match is replaced by the group. There is one
    match, and what follows a line break is copied as it is, so the result
    is the URI without its leading slashes. *)
Fixpoint trimLeadingSlashes (s : string) : string :=
  match s with
  | String "/"%char rest => trimLeadingSlashes rest
  | _ => s
  end.

Section Engine.
Context `{L : Imports}.

(** The logger is left out: it is written to and never read. *)
Record Sigstoreimpl : Type := mkSigstore {
  verifyFunction :
    Reference -> CheckOpts CertPool -> slice (option Signature) * bool * option error;
  fetchImageManifestFunction : Reference -> result Descriptor;
  skippedImages : option (gmap string bool);
  allowListEnabled : bool;
  subjectAllowList : option (gmap string bool);
  rekorURL : URL;
  sigstorecache : Cacheimpl (slice SelectorsFromSignatures);
}.

Definition New (cache : Cacheimpl (slice SelectorsFromSignatures)) : Sigstoreimpl :=
  {| verifyFunction := cosign_VerifyImageSignatures;
     fetchImageManifestFunction := remote_Get;
     skippedImages := None;
     allowListEnabled := false;
     subjectAllowList := None;
     rekorURL := {| Scheme := rekor_DefaultSchemes0; User := None;
                    Host := rekor_DefaultHost; Path := rekor_DefaultBasePath;
                    RawQuery := ""; Fragment := "" |};
     sigstorecache := cache |}.

Definition validateRefDigest (ref : Reference) (digest : string) : bool * option error :=
  match ref with
  | RefDigest dgst =>
      if decide (DigestStr dgst = digest) then (true, None)
      else (false, Some ("Digest " +:+ digest +:+ " does not match " +:+ DigestStr dgst))
  | RefTag _ =>
      (false, Some ("Reference " +:+ Reference_String ref +:+ " is not a digest"))
  end.

(** Validates if the image manifest hash matches the digest in the image
    reference *)
Definition ValidateImage (sigstore : Sigstoreimpl) (ref : Reference) : bool * option error :=
  match fetchImageManifestFunction sigstore ref with
  | Err err => (false, Some err)
  | Ok desc =>
      match Manifest desc with
      | None => (false, Some (errors_New "Manifest is nil"))
      | Some manifest =>
          match v1_SHA256 manifest with
          | Err err => (false, Some err)
          | Ok hash => validateRefDigest ref (Hash_String hash)
          end
      end
  end.

(** The options FetchImageSignatures verifies with: the rekor client for
    the path and host of the configured URL, and fulcio's root
    certificates. *)
Definition checkOpts (sigstore : Sigstoreimpl) : CheckOpts CertPool :=
  {| RekorClient :=
       WithHost (WithBasePath rekor_DefaultTransportConfig (Path (rekorURL sigstore)))
                (Host (rekorURL sigstore));
     RootCerts := fulcio_GetRoots |}.

(** FetchImageSignatures retrieves signatures for specified image via
    cosign, using the specified rekor server. *)
Definition FetchImageSignatures (sigstore : Sigstoreimpl) (imageName : string)
    : slice (option Signature) * option error :=
  match name_ParseReference imageName with
  | Err err => (None, Some (errors_New ("Error parsing image reference: " +:+ err)))
  | Ok ref =>
      match ValidateImage sigstore ref with
      | (_, Some err) =>
          (None, Some (errors_New ("Could not validate image reference digest: " +:+ err)))
      | (_, None) =>
          let co := checkOpts sigstore in
          match verifyFunction sigstore ref co with
          | (_, _, Some err) =>
              (None, Some (errors_New ("Error verifying signature: " +:+ err)))
          | (sigs, ok, None) =>
              if negb ok
              then (None, Some (errors_New ("Bundle not verified for " +:+ imageName)))
              else (sigs, None)
          end
      end
  end.

Definition certSubject (c : option Certificate) : outcome string :=
  match c with
  | None => Returns ""
  | Some c =>
      match EmailAddresses c, URIs c with
      | Some _, _ => index0 (EmailAddresses c)
      | None, Some _ =>
          u ← index0 (URIs c);
          Returns (trimLeadingSlashes (URL_String u))
      | None, None => Returns ""
      end
  end.

Definition getSignatureSubject (signature : option Signature) : outcome (string * option error) :=
  match signature with
  | None => Returns ("", Some (errors_New "Signature is nil"))
  | Some signature =>
      match Payload signature with
      | Err err => Returns ("", Some err)
      | Ok pl =>
          match json_Unmarshal_SimpleContainerImage pl with
          | Err err => Returns ("", Some err)
          | Ok ss =>
              match Cert signature with
              | Err err =>
                  Returns ("", Some (errors_New ("Error acessing the certificate" +:+ err)))
              | Ok cert =>
                  let subject :=
                    match Optional ss with
                    | Some optional =>
                        match optional !! "subject" with
                        | Some (AnyString subjString) => subjString
                        | _ => ""
                        end
                    | None => ""
                    end in
                  match cert with
                  | Some _ =>
                      subject' ← certSubject cert;
                      Returns (subject', None)
                  | None => Returns (subject, None)
                  end
              end
          end
      end
  end.

(** The signatures for which getSignatureSubject reaches certSubject with
    a certificate whose email list, or whose URI list when the email list
    is nil, is empty without being nil: the list that certSubject indexes
    at 0. *)
Definition indexesEmptyList (signature : option Signature) : Prop :=
  exists sig pl ss c,
    signature = Some sig /\ Payload sig = Ok pl
    /\ json_Unmarshal_SimpleContainerImage pl = Ok ss
    /\ Cert sig = Ok (Some c)
    /\ (EmailAddresses c = Some [] \/ (EmailAddresses c = None /\ URIs c = Some [])).

Definition getBundleSignatureContent (bundle : option oci_Bundle) : string * option error :=
  match bundle with
  | None => ("", Some (errors_New "Bundle is nil"))
  | Some bundle =>
      match Body (bundle_Payload bundle) with
      | AnyString body64 =>
          match base64_DecodeString body64 with
          | Err err => ("", Some err)
          | Ok body =>
              match json_Unmarshal_BundleBody body with
              | Err err => ("", Some err)
              | Ok bundlebody =>
                  if decide (Content (spec_Signature (Spec bundlebody)) = "")
                  then ("", Some (errors_New "Bundle payload body has no signature content"))
                  else (Content (spec_Signature (Spec bundlebody)), None)
              end
          end
      | _ => ("", Some (errors_New "Payload body is not a string"))
      end
  end.

(** SelectorValuesFromSignature extracts selectors from a signature. *)
Definition SelectorValuesFromSignature (sigstore : Sigstoreimpl)
    (signature : option Signature) (containerID : string) : outcome SelectorsFromSignatures :=
  r ← getSignatureSubject signature;
  match r with
  | (_, Some _) => Returns noSelectors
  | (subject, None) =>
      if decide (subject = "") then Returns noSelectors
      else
        let suppress :=
          allowListEnabled sigstore
          && bool_decide (default ∅ (subjectAllowList sigstore) !! subject = None) in
        if suppress then Returns noSelectors
        else
          let withSubject :=
            {| sel_Subject := subject; sel_Content := ""; sel_LogID := "";
               sel_IntegratedTime := ""; Verified := true |} in
          match signature with
          | None => Panics nil_dereference
          | Some sig =>
              match Bundle sig with
              | Err _ => Returns withSubject
              | Ok bundle =>
                  let withContent :=
                    match getBundleSignatureContent bundle with
                    | (_, Some _) => withSubject
                    | (sigContent, None) =>
                        {| sel_Subject := subject; sel_Content := sigContent;
                           sel_LogID := ""; sel_IntegratedTime := ""; Verified := true |}
                    end in
                  match bundle with
                  | None => Panics nil_dereference
                  | Some bundle =>
                      let p := bundle_Payload bundle in
                      Returns
                        {| sel_Subject := subject;
                           sel_Content := sel_Content withContent;
                           sel_LogID := if decide (LogID p = "") then "" else LogID p;
                           sel_IntegratedTime :=
                             if decide (IntegratedTime p = 0) then ""
                             else Sprintf_d (IntegratedTime p);
                           Verified := true |}
                  end
              end
          end
  end.

(** The loop of ExtractSelectorsFromSignatures, from the selectors
    gathered so far. *)
Fixpoint extractLoop (sigstore : Sigstoreimpl) (signatures : list (option Signature))
    (containerID : string) (selectors : slice SelectorsFromSignatures)
    : outcome (slice SelectorsFromSignatures) :=
  match signatures with
  | [] => Returns selectors
  | sig :: rest =>
      sigSelectors ← SelectorValuesFromSignature sigstore sig containerID;
      extractLoop sigstore rest containerID
        (if Verified sigSelectors then append selectors [sigSelectors] else selectors)
  end.

(** ExtractSelectorsFromSignatures extracts selectors from a list of image
    signatures. *)
Definition ExtractSelectorsFromSignatures (sigstore : Sigstoreimpl)
    (signatures : slice (option Signature)) (containerID : string)
    : outcome (slice SelectorsFromSignatures) :=
  match signatures with
  | None => Returns None
  | Some sigs => extractLoop sigstore sigs containerID None
  end.

Definition selectorsToString (selectors : SelectorsFromSignatures) (containerID : string)
    : list string :=
  (if decide (sel_Subject selectors = "") then []
   else [containerID +:+ ":image-signature-subject:" +:+ sel_Subject selectors])
  ++ (if decide (sel_Content selectors = "") then []
      else [containerID +:+ ":image-signature-content:" +:+ sel_Content selectors])
  ++ (if decide (sel_LogID selectors = "") then []
      else [containerID +:+ ":image-signature-logid:" +:+ sel_LogID selectors])
  ++ (if decide (sel_IntegratedTime selectors = "") then []
      else [containerID +:+ ":image-signature-integrated-time:"
            +:+ sel_IntegratedTime selectors]).

(** ShouldSkipImage checks the skip list for the image ID in the container
    status. *)
Definition ShouldSkipImage (sigstore : Sigstoreimpl) (imageID : string) : bool * option error :=
  match skippedImages sigstore with
  | None => (false, None)
  | Some skipped =>
      if decide (imageID = "") then (false, Some (errors_New "Image ID is empty"))
      else match skipped !! imageID with
           | Some _ => (true, None)
           | None => (false, None)
           end
  end.

Definition with_skippedImages (sigstore : Sigstoreimpl) (m : option (gmap string bool))
    : Sigstoreimpl :=
  {| verifyFunction := verifyFunction sigstore;
     fetchImageManifestFunction := fetchImageManifestFunction sigstore;
     skippedImages := m;
     allowListEnabled := allowListEnabled sigstore;
     subjectAllowList := subjectAllowList sigstore;
     rekorURL := rekorURL sigstore;
     sigstorecache := sigstorecache sigstore |}.

Definition with_subjectAllowList (sigstore : Sigstoreimpl) (enabled : bool)
    (m : option (gmap string bool)) : Sigstoreimpl :=
  {| verifyFunction := verifyFunction sigstore;
     fetchImageManifestFunction := fetchImageManifestFunction sigstore;
     skippedImages := skippedImages sigstore;
     allowListEnabled := enabled;
     subjectAllowList := m;
     rekorURL := rekorURL sigstore;
     sigstorecache := sigstorecache sigstore |}.

Definition with_rekorURL (sigstore : Sigstoreimpl) (u : URL) : Sigstoreimpl :=
  {| verifyFunction := verifyFunction sigstore;
     fetchImageManifestFunction := fetchImageManifestFunction sigstore;
     skippedImages := skippedImages sigstore;
     allowListEnabled := allowListEnabled sigstore;
     subjectAllowList := subjectAllowList sigstore;
     rekorURL := u;
     sigstorecache := sigstorecache sigstore |}.

(** AddSkippedImage adds the image ID and selectors to the skip list. *)
Definition AddSkippedImage (sigstore : Sigstoreimpl) (imageID : string) : Sigstoreimpl :=
  with_skippedImages sigstore
    (Some (<[imageID := true]> (default ∅ (skippedImages sigstore)))).

(** ClearSkipList clears the skip list. *)
Definition ClearSkipList (sigstore : Sigstoreimpl) : Sigstoreimpl :=
  with_skippedImages sigstore None.

Definition AddAllowedSubject (sigstore : Sigstoreimpl) (subject : string) : Sigstoreimpl :=
  with_subjectAllowList sigstore (allowListEnabled sigstore)
    (Some (<[subject := true]> (default ∅ (subjectAllowList sigstore)))).

Definition ClearAllowedSubjects (sigstore : Sigstoreimpl) : Sigstoreimpl :=
  with_subjectAllowList sigstore (allowListEnabled sigstore) None.

Definition EnableAllowSubjectList (sigstore : Sigstoreimpl) (flag : bool) : Sigstoreimpl :=
  with_subjectAllowList sigstore flag (subjectAllowList sigstore).

(** The strings of the cached selectors, closed by the verification
    selector when there is at least one. *)
Definition renderSelectors (value : slice SelectorsFromSignatures) (containerID : string)
    : slice string :=
  if decide (0 < len value)%nat
  then append
         (append None (concat ((fun selector => selectorsToString selector containerID)
                                 <$> elems value)))
         [signatureVerifiedSelector]
  else None.

(** The call returns its two results and leaves the cache, which the
    engine holds by reference, in a new state. *)
Definition AttestContainerSignatures (sigstore : Sigstoreimpl) (status : ContainerStatus)
    : outcome (slice string * option error * Cacheimpl (slice SelectorsFromSignatures)) :=
  let cache := sigstorecache sigstore in
  let '(skip, _) := ShouldSkipImage sigstore (ImageID status) in
  if skip then Returns (Some [signatureVerifiedSelector], None, cache)
  else
    let imageID := ImageID status in
    let cacheKey := imageID in
    match GetSignature cache cacheKey with
    | (Some cachedSignature, cache') =>
        Returns (renderSelectors (Value cachedSignature) (ContainerID status), None, cache')
    | (None, cache') =>
        match FetchImageSignatures sigstore (ImageID status) with
        | (_, Some err) => Returns (None, Some err, cache')
        | (signatures, None) =>
            selectors ← ExtractSelectorsFromSignatures sigstore signatures (ContainerID status);
            let cachedSignature := {| Key := cacheKey; Value := selectors |} in
            cache'' ← PutSignature cache' cachedSignature;
            Returns (renderSelectors (Value cachedSignature) (ContainerID status), None, cache'')
        end
    end.

Definition SetRekorURL (sigstore : Sigstoreimpl) (rekorURL : string)
    : option error * Sigstoreimpl :=
  if decide (rekorURL = "") then (Some (errors_New "Rekor URL is empty"), sigstore)
  else
    match url_Parse rekorURL with
    | Err err => (Some (errors_New ("Error parsing rekor URI: " +:+ err)), sigstore)
    | Ok rekorURI =>
        if decide (Scheme rekorURI <> "" /\ Scheme rekorURI <> "https")
        then (Some (errors_New ("Invalid rekor URL Scheme: " +:+ Scheme rekorURI)), sigstore)
        else if decide (Host rekorURI = "")
        then (Some (errors_New ("Invalid rekor URL Host: " +:+ Host rekorURI)), sigstore)
        else (None, with_rekorURL sigstore rekorURI)
    end.

End Engine.

End Sigstore.

(** ** The design document's wording

    Where a statement of the design document differs from the code, the
    statement as the document words it, to be compared with the code. *)
Module Specified.
Import Sigstore.

Section Wording.
Context `{L : Imports}.

(** "with any leading // stripped" *)
Definition trimDoubleSlash (s : string) : string :=
  match s with
  | String "/" (String "/" rest) => rest
  | _ => s
  end.

(** "If the certificate has at least one email address, use the first one.
    Else if the certificate has at least one URI, use the first one, with
    any leading // stripped. Else subject becomes empty." *)
Definition certSubject (c : Certificate) : string :=
  match elems (EmailAddresses c), elems (URIs c) with
  | email :: _, _ => email
  | [], uri :: _ => trimDoubleSlash (URL_String uri)
  | [], [] => ""
  end.

(** "Parse the signature payload as JSON; read an optional subject string
    field inside an optional object. This is the default subject if nothing
    overrides it. If the signature carries an identity certificate, the
    certificate overrides the payload subject." *)
Definition payloadSubject (ss : SimpleContainerImage) : string :=
  match Optional ss ≫= (fun optional => optional !! "subject") with
  | Some (AnyString subject) => subject
  | _ => ""
  end.

Definition signatureSubject (ss : SimpleContainerImage) (cert : option Certificate)
    : string :=
  match cert with
  | Some c => certSubject c
  | None => payloadSubject ss
  end.

(** "empty (use compiled-in default) or a URL whose scheme, if present, is
    https, and whose host, if scheme present, is non-empty" *)
Definition validEndpoint (rekorURL : string) : Prop :=
  rekorURL = ""
  \/ exists u, url_Parse rekorURL = Ok u
               /\ (Scheme u = "" \/ Scheme u = "https")
               /\ (Scheme u <> "" -> Host u <> "").

(** "If payload parsing fails, or the payload is empty, or no subject is
    found by either path": the payload cannot be read, is empty or is not
    JSON, or the subject that the payload and the certificate give by the
    precedence above is empty. *)
Definition noSubject (signature : option Signature) : Prop :=
  match signature with
  | None => True
  | Some sig =>
      Payload sig = Ok []
      \/ (exists e, Payload sig = Err e)
      \/ (exists pl e, Payload sig = Ok pl
                       /\ json_Unmarshal_SimpleContainerImage pl = Err e)
      \/ (exists pl ss cert, Payload sig = Ok pl
                             /\ json_Unmarshal_SimpleContainerImage pl = Ok ss
                             /\ Cert sig = Ok cert
                             /\ signatureSubject ss cert = "")
  end.

End Wording.

End Specified.

(** ** Package sigstore, first version (cosign signed payloads) *)
Module SigstorePayload.

(** cosign's [SignedPayload]: the two fields read here. *)
Record SignedPayload : Type := mkSignedPayload {
  sp_Payload : list Byte.byte;
  sp_Cert : option Certificate;
}.

(** [fmt.Sprintf("%s", v)] of an [Optional] value: the struct and the
    struct inside it are each printed between braces. *)
Definition Sprintf_s (v : Optional_) : string :=
  "{{" +:+ subject_Subject (optional_Optional v) +:+ "}}".

(** The regular expression that matches one brace, replaced by nothing. *)
Fixpoint removeBraces (s : string) : string :=
  match s with
  | EmptyString => EmptyString
  | String c rest =>
      if (c =? "{")%char || (c =? "}")%char then removeBraces rest
      else String c (removeBraces rest)
  end.

Section Engine.
Context `{L : Imports}.

Definition getOnlySubject (payload : string) : outcome string :=
  match json_Unmarshal_Optionals payload with
  | Err _ => Returns ""
  | Ok selector =>
      first ← index0 selector;
      Returns (removeBraces (Sprintf_s first))
  end.

Definition certSubject (c : Certificate) : outcome string :=
  match EmailAddresses c, URIs c with
  | Some _, _ => index0 (EmailAddresses c)
  | None, Some _ => u ← index0 (URIs c); Returns (URL_String u)
  | None, None => Returns ""
  end.

(** The loop of getSubjectImage: [None] when a payload does not decode. *)
Fixpoint decodeAll (verified : list SignedPayload) (outputKeys : slice SimpleContainerImage)
    : outcome (option (slice SimpleContainerImage)) :=
  match verified with
  | [] => Returns (Some outputKeys)
  | vp :: rest =>
      match json_Unmarshal_SimpleContainerImage (sp_Payload vp) with
      | Err _ => Returns None
      | Ok ss =>
          ss' ← match sp_Cert vp with
                | Some cert =>
                    subject ← certSubject cert;
                    Returns {| Optional :=
                                 Some (<["Subject" := AnyString subject]>
                                         (default ∅ (Optional ss))) |}
                | None => Returns ss
                end;
          decodeAll rest (append outputKeys [ss'])
      end
  end.

Definition getSubjectImage (verified : slice SignedPayload) : outcome string :=
  decoded ← decodeAll (elems verified) None;
  match decoded with
  | None => Returns ""
  | Some outputKeys =>
      match json_Marshal_SimpleContainerImages outputKeys with
      | Err _ => Returns ""
      | Ok b => getOnlySubject b
      end
  end.

Definition ExtractselectorOfSignedImage (payload : slice SignedPayload) : outcome string :=
  match payload with
  | Some _ => getSubjectImage payload
  | None => Returns ""
  end.

End Engine.

End SigstorePayload.

(** ** Concrete inputs

    Stand-ins for the imported functions, precise enough for the inputs of
    the examples below: a reader of JSON text without escapes, a URL parser
    and printer for texts that need no escaping, and a digest that is the
    hexadecimal dump of its input. The statements of the theorems hold for
    every instance of [Imports]; these are used to evaluate them. *)
Module Samples.
Import SigstoreCache.

Definition dquote : ascii := ascii_of_nat 34.
Definition quoted (s : string) : string :=
  String dquote s +:+ String dquote EmptyString.

Definition is_space (c : ascii) : bool :=
  (c =? " ")%char || (c =? "009")%char || (c =? "010")%char || (c =? "013")%char.

Fixpoint skip_space (s : string) : string :=
  match s with
  | String c rest => if is_space c then skip_space rest else s
  | EmptyString => s
  end.

(** The text of a string literal, after its opening quote. *)
Fixpoint read_string (s : string) : option (string * string) :=
  match s with
  | EmptyString => None
  | String c rest =>
      if (c =? dquote)%char then Some (EmptyString, rest)
      else if (c =? "\")%char then None
      else '(a, rest') ← read_string rest; Some (String c a, rest')
  end.

Definition is_number_char (c : ascii) : bool :=
  let n := nat_of_ascii c in
  ((48 <=? n) && (n <=? 57))%nat
  || (c =? "-")%char || (c =? "+")%char || (c =? ".")%char
  || (c =? "e")%char || (c =? "E")%char.

Fixpoint read_number (s : string) : string * string :=
  match s with
  | String c rest =>
      if is_number_char c
      then let '(a, rest') := read_number rest in (String c a, rest')
      else (EmptyString, s)
  | EmptyString => (EmptyString, s)
  end.

Definition strip_prefix (p s : string) : option string :=
  if String.prefix p s then Some (String.substring (String.length p) (String.length s) s)
  else None.

Fixpoint read_members (value : string -> option (any * string)) (n : nat) (s : string)
    : option (list (string * any) * string) :=
  match n with
  | O => None
  | S n' =>
      match skip_space s with
      | String c r =>
          if (c =? dquote)%char then
            '(k, r1) ← read_string r;
            match skip_space r1 with
            | String ":" r2 =>
                '(v, r3) ← value r2;
                match skip_space r3 with
                | String "," r4 =>
                    '(m, r5) ← read_members value n' r4; Some ((k, v) :: m, r5)
                | String "}" r4 => Some ([(k, v)], r4)
                | _ => None
                end
            | _ => None
            end
          else None
      | EmptyString => None
      end
  end.

Fixpoint read_elements (value : string -> option (any * string)) (n : nat) (s : string)
    : option (list any * string) :=
  match n with
  | O => None
  | S n' =>
      '(v, r1) ← value s;
      match skip_space r1 with
      | String "," r2 => '(l, r3) ← read_elements value n' r2; Some (v :: l, r3)
      | String "]" r2 => Some ([v], r2)
      | _ => None
      end
  end.

Fixpoint read_value (fuel : nat) (s : string) : option (any * string) :=
  match fuel with
  | O => None
  | S fuel' =>
      match skip_space s with
      | EmptyString => None
      | String c r =>
          if (c =? dquote)%char then
            '(a, rest) ← read_string r; Some (AnyString a, rest)
          else if (c =? "{")%char then
            match skip_space r with
            | String "}" rest => Some (AnyMap [], rest)
            | _ => '(m, rest) ← read_members (read_value fuel') fuel' r; Some (AnyMap m, rest)
            end
          else if (c =? "[")%char then
            match skip_space r with
            | String "]" rest => Some (AnySlice [], rest)
            | _ => '(l, rest) ← read_elements (read_value fuel') fuel' r; Some (AnySlice l, rest)
            end
          else if is_number_char c then
            let '(a, rest) := read_number (String c r) in Some (AnyFloat64 a, rest)
          else
            match strip_prefix "null" (String c r), strip_prefix "true" (String c r),
                  strip_prefix "false" (String c r) with
            | Some rest, _, _ => Some (AnyNil, rest)
            | _, Some rest, _ => Some (AnyBool true, rest)
            | _, _, Some rest => Some (AnyBool false, rest)
            | _, _, _ => None
            end
      end
  end.

(** One JSON value and nothing after it. *)
Definition read_json (text : string) : option any :=
  '(v, rest) ← read_value (S (String.length text)) text;
  match skip_space rest with
  | EmptyString => Some v
  | _ => None
  end.

(** The member a later duplicate of which wins, as in encoding/json. *)
Definition member (k : string) (m : list (string * any)) : option any :=
  snd <$> last (filter (fun kv => kv.1 = k) m).

Definition sample_Unmarshal_SimpleContainerImage (data : list Byte.byte)
    : result SimpleContainerImage :=
  match read_json (string_of_list_byte data) with
  | None => Err "invalid character or unexpected end of JSON input"
  | Some AnyNil => Ok {| Optional := None |}
  | Some (AnyMap m) =>
      match member "optional" m with
      | None | Some AnyNil => Ok {| Optional := None |}
      | Some (AnyMap o) => Ok {| Optional := Some (list_to_map (reverse o)) |}
      | Some _ => Err "json: cannot unmarshal into Go struct field optional"
      end
  | Some _ => Err "json: cannot unmarshal into Go value of type SimpleContainerImage"
  end.

Definition decode_Optional (v : any) : option Optional_ :=
  match v with
  | AnyNil => Some {| optional_Optional := {| subject_Subject := "" |} |}
  | AnyMap m =>
      match member "optional" m with
      | None | Some AnyNil => Some {| optional_Optional := {| subject_Subject := "" |} |}
      | Some (AnyMap o) =>
          match member "Subject" o with
          | None | Some AnyNil => Some {| optional_Optional := {| subject_Subject := "" |} |}
          | Some (AnyString subj) => Some {| optional_Optional := {| subject_Subject := subj |} |}
          | Some _ => None
          end
      | Some _ => None
      end
  | _ => None
  end.

Definition sample_Unmarshal_Optionals (payload : string) : result (slice Optional_) :=
  match read_json payload with
  | None => Err "invalid character or unexpected end of JSON input"
  | Some AnyNil => Ok None
  | Some (AnySlice l) =>
      match mapM decode_Optional l with
      | Some selector => Ok (Some selector)
      | None => Err "json: cannot unmarshal into Go value of type sigstore.Optional"
      end
  | Some _ => Err "json: cannot unmarshal into Go value of type []sigstore.Optional"
  end.

Definition join (sep : string) (l : list string) : string :=
  match l with
  | [] => EmptyString
  | x :: rest => fold_left (fun acc y => acc +:+ sep +:+ y) rest x
  end.

(** The [optional] member with its string entries, in the order of the map. *)
Definition sample_Marshal_SimpleContainerImages (v : slice SimpleContainerImage)
    : result string :=
  match v with
  | None => Ok "null"
  | Some l =>
      let entry := fun kv : string * any =>
        match kv.2 with
        | AnyString a => quoted kv.1 +:+ ":" +:+ quoted a
        | _ => quoted kv.1 +:+ ":null"
        end in
      let one := fun ss : SimpleContainerImage =>
        "{" +:+ quoted "optional" +:+ ":{"
        +:+ join "," (entry <$> map_to_list (default ∅ (Optional ss))) +:+ "}}" in
      Ok ("[" +:+ join "," (one <$> l) +:+ "]")
  end.

Definition split_at (sep : ascii) (s : string) : option (string * string) :=
  (fun i => (String.substring 0 i s, String.substring (S i) (String.length s) s))
    <$> String.index 0 (String sep EmptyString) s.

Definition is_letter (c : ascii) : bool :=
  let n := nat_of_ascii c in
  (((97 <=? n) && (n <=? 122)) || ((65 <=? n) && (n <=? 90)))%nat.

(** net/url's getScheme: the letters, digits, '+', '-' and '.' before the
    first ':' when they start with a letter. *)
Fixpoint getScheme (first : bool) (acc rest rawURL : string) : result (string * string) :=
  match rest with
  | EmptyString => Ok (EmptyString, rawURL)
  | String c r =>
      if is_letter c then getScheme false (acc +:+ String c EmptyString) r rawURL
      else if is_number_char c && negb (c =? "e")%char && negb (c =? "E")%char then
        if first then Ok (EmptyString, rawURL)
        else getScheme false (acc +:+ String c EmptyString) r rawURL
      else if (c =? ":")%char then
        if first then Err "missing protocol scheme" else Ok (acc, r)
      else Ok (EmptyString, rawURL)
  end.

Definition sample_url_Parse (rawURL : string) : result URL :=
  let '(u, frag) := default (rawURL, EmptyString) (split_at "#" rawURL) in
  match getScheme true EmptyString u u with
  | Err e => Err ("parse " +:+ quoted rawURL +:+ ": " +:+ e)
  | Ok (scheme, rest) =>
      let '(rest, query) := default (rest, EmptyString) (split_at "?" rest) in
      match strip_prefix "//" rest with
      | Some after =>
          let '(authority, path) :=
            match String.index 0 "/" after with
            | Some i => (String.substring 0 i after,
                         String.substring i (String.length after) after)
            | None => (after, EmptyString)
            end in
          let '(user, host) :=
            match split_at "@" authority with
            | Some (name, h) => (Some name, h)
            | None => (None, authority)
            end in
          Ok {| Scheme := scheme; User := user; Host := host; Path := path;
                RawQuery := query; Fragment := frag |}
      | None =>
          Ok {| Scheme := scheme; User := None; Host := EmptyString; Path := rest;
                RawQuery := query; Fragment := frag |}
      end
  end.

Definition sample_URL_String (u : URL) : string :=
  (if decide (Scheme u = "") then "" else Scheme u +:+ ":")
  +:+ (if decide (Scheme u <> "" \/ Host u <> "" \/ User u <> None)
       then (if decide (Host u <> "" \/ Path u <> "" \/ User u <> None) then "//" else "")
            +:+ (match User u with Some name => name +:+ "@" | None => "" end)
            +:+ Host u
       else "")
  +:+ (match Path u with
       | String c _ => if negb (c =? "/")%char && negb (String.eqb (Host u) "") then "/" else ""
       | EmptyString => ""
       end)
  +:+ Path u
  +:+ (if decide (RawQuery u = "") then "" else "?" +:+ RawQuery u)
  +:+ (if decide (Fragment u = "") then "" else "#" +:+ Fragment u).

(** A reference with '@' names a digest, any other a tag. *)
Definition sample_ParseReference (s : string) : result Reference :=
  if decide (s = "") then Err "could not parse reference: "
  else match split_at "@" s with
       | Some (_, digest) => Ok (RefDigest {| DigestStr := digest; digest_original := s |})
       | None =>
           Ok (RefTag {| TagStr := default "latest" (snd <$> split_at ":" s);
                         tag_original := s |})
       end.

Definition hex_digit (n : nat) : ascii :=
  ascii_of_nat (if (n <? 10)%nat then 48 + n else 87 + n).

Definition hex_dump (data : list Byte.byte) : string :=
  string_of_list_ascii
    (concat ((fun b => let n := nat_of_ascii (ascii_of_byte b) in
                       [hex_digit (n / 16); hex_digit (n mod 16)]) <$> data)).

Definition sample_SHA256 (data : list Byte.byte) : result Hash :=
  Ok {| Algorithm := "sha256"; Hex := hex_dump data |}.

(** The items of the package's PutSignature test, by their subjects. *)
Definition item1 : Item string := {| Key := "signature1"; Value := "spirex1@example.com" |}.
Definition item2 : Item string := {| Key := "signature2"; Value := "spirex2@example.com" |}.
Definition item3 : Item string := {| Key := "signature3"; Value := "spirex3@example.com" |}.
Definition item4 : Item string := {| Key := "signature3"; Value := "spirex4@example.com" |}.

#[export] Instance sample_imports : Imports := {|
  name_ParseReference := sample_ParseReference;
  v1_SHA256 := sample_SHA256;
  url_Parse := sample_url_Parse;
  URL_String := sample_URL_String;
  json_Unmarshal_SimpleContainerImage := sample_Unmarshal_SimpleContainerImage;
  json_Unmarshal_BundleBody := fun _ => Err "unexpected end of JSON input";
  json_Unmarshal_Optionals := sample_Unmarshal_Optionals;
  json_Marshal_SimpleContainerImages := sample_Marshal_SimpleContainerImages;
  base64_DecodeString := fun _ => Err "illegal base64 data at input byte 0";
  CertPool := unit;
  fulcio_GetRoots := tt;
  cosign_VerifyImageSignatures := fun _ _ => (None, false, Some "no matching signatures");
  remote_Get := fun _ => Err "registry unreachable";
  rekor_DefaultSchemes0 := "http";
  rekor_DefaultHost := "rekor.sigstore.dev";
  rekor_DefaultBasePath := "/";
  rekor_DefaultTransportConfig :=
    {| tc_Host := "rekor.sigstore.dev"; tc_BasePath := "/"; tc_Schemes := ["http"] |};
|}.

(** An engine as the tests of the package build theirs: the registry
    serves one manifest for every image, and the verifier answers as
    told. *)
Import Sigstore.

Definition manifest : list Byte.byte := list_byte_of_string "manifest".

Definition serve_manifest (ref : Reference) : result Descriptor :=
  Ok {| Manifest := Some manifest |}.

Definition answer (sigs : slice (option Signature)) (ok : bool) (err : option error)
    (ref : Reference) (co : CheckOpts unit)
    : slice (option Signature) * bool * option error :=
  (sigs, ok, err).

Definition engine (sigs : slice (option Signature)) (ok : bool) (err : option error)
    : Sigstoreimpl :=
  {| verifyFunction := answer sigs ok err;
     fetchImageManifestFunction := serve_manifest;
     skippedImages := None;
     allowListEnabled := false;
     subjectAllowList := None;
     rekorURL := rekorURL (New (NewCache 10));
     sigstorecache := NewCache 10 |}.

(** The image of the served manifest, by digest and by tag. *)
Definition image_by_digest : string := "registry/img@sha256:" +:+ hex_dump manifest.
Definition image_by_tag : string := "registry/img:latest".

Definition payload_with_subject (subject : string) : list Byte.byte :=
  list_byte_of_string
    ("{" +:+ quoted "optional" +:+ ":{" +:+ quoted "subject" +:+ ":"
     +:+ quoted subject +:+ "}}").

Definition signature_of (payload : list Byte.byte) (cert : option Certificate) : Signature :=
  {| Payload := Ok payload; Cert := Ok cert; Bundle := Err "no bundle" |}.

Definition cert_with_email (email : string) : Certificate :=
  {| EmailAddresses := Some [email]; URIs := None |}.

Definition cert_with_uri (uri : URL) : Certificate :=
  {| EmailAddresses := None; URIs := Some [uri] |}.

Definition path_only (path : string) : URL :=
  {| Scheme := ""; User := None; Host := ""; Path := path; RawQuery := ""; Fragment := "" |}.

(** The record of a signature by [subject] without a bundle, and an engine
    whose cache holds it for the image of the served manifest. *)
Definition selectors_of (subject : string) : SelectorsFromSignatures :=
  {| sel_Subject := subject; sel_Content := ""; sel_LogID := "";
     sel_IntegratedTime := ""; Verified := true |}.

Definition engine_with_cached (subject : string) : Sigstoreimpl :=
  {| verifyFunction := answer None false (Some "unreachable");
     fetchImageManifestFunction := serve_manifest;
     skippedImages := None;
     allowListEnabled := false;
     subjectAllowList := None;
     rekorURL := rekorURL (New (NewCache 10));
     sigstorecache :=
       {| size := 10;
          items := [{| Key := "registry/other@sha256:00"; Value := None |};
                    {| Key := image_by_digest; Value := Some [selectors_of subject] |}] |} |}.

Definition uri_of_user (user host : string) : URL :=
  {| Scheme := ""; User := Some user; Host := host; Path := "";
     RawQuery := ""; Fragment := "" |}.

End Samples.

(** ** Package sigstore, the version with a skip list of selectors

    The version of the engine that takes the rekor URL with each fetch and
    keeps, for every skipped image, the selectors to answer with. Its
    extraction functions are those of the engine without the allow list. *)
Module SigstoreSkipList.

Section Engine.
Context `{L : Imports}.

Record Sigstoreimpl : Type := mkSigstore {
  verifyFunction :
    Reference -> CheckOpts CertPool -> slice (option Signature) * bool * option error;
  validateImageRefFunction : Reference -> bool * option error;
  skippedImages : option (gmap string (slice string));
}.

Definition validateRefDigest (ref : Reference) (digest : string) : bool * option error :=
  match ref with
  | RefDigest dgst =>
      if decide (DigestStr dgst = digest) then (true, None)
      else (false, None)
  | RefTag _ =>
      (* do nothing if ref is a Tag *)
      (false, None)
  end.

Definition ValidateImage (ref : Reference) : bool * option error :=
  match remote_Get ref with
  | Err err => (false, Some err)
  | Ok desc =>
      match v1_SHA256 (elems (Manifest desc)) with
      | Err err => (false, Some err)
      | Ok hash => validateRefDigest ref (Hash_String hash)
      end
  end.

Definition New : Sigstoreimpl :=
  {| verifyFunction := cosign_VerifyImageSignatures;
     validateImageRefFunction := ValidateImage;
     skippedImages := None |}.

(** The rekor client of a fetch: the default one for the empty URL. *)
Definition rekorClient (rekorURL : string) : result TransportConfig :=
  if decide (rekorURL = "") then Ok rekor_DefaultTransportConfig
  else
    match url_Parse rekorURL with
    | Err err => Err (errors_New ("Error parsing rekor URI: " +:+ err))
    | Ok rekorURI =>
        if decide (Scheme rekorURI <> "" /\ Scheme rekorURI <> "https")
        then Err (errors_New ("Invalid rekor URL Scheme: " +:+ Scheme rekorURI))
        else if decide (Host rekorURI = "")
        then Err (errors_New ("Invalid rekor URL Host: " +:+ Host rekorURI))
        else Ok (WithHost (WithBasePath rekor_DefaultTransportConfig (Path rekorURI))
                          (Host rekorURI))
    end.

(** FetchImageSignatures retrieves the signature payload from the specified
    image *)
Definition FetchImageSignatures (sigstore : Sigstoreimpl) (imageName rekorURL : string)
    : slice (option Signature) * option error :=
  match name_ParseReference imageName with
  | Err err => (None, Some (errors_New ("Error parsing image reference: " +:+ err)))
  | Ok ref =>
      match validateImageRefFunction sigstore ref with
      | (_, Some err) =>
          (None, Some (errors_New ("Could not validate image reference digest: " +:+ err)))
      | (_, None) =>
          match rekorClient rekorURL with
          | Err err => (None, Some err)
          | Ok client =>
              let co := {| RekorClient := client; RootCerts := fulcio_GetRoots |} in
              match verifyFunction sigstore ref co with
              | (_, _, Some err) =>
                  (None, Some (errors_New ("Error verifying signature: " +:+ err)))
              | (sigs, ok, None) =>
                  if negb ok
                  then (None, Some (errors_New ("Bundle not verified for " +:+ imageName)))
                  else (sigs, None)
              end
          end
      end
  end.

Definition SkipImage (sigstore : Sigstoreimpl) (status : ContainerStatus)
    : slice string * option error :=
  match skippedImages sigstore with
  | Some skipped =>
      match skipped !! ImageID status with
      | Some selectors => (selectors, None)
      | None => (None, None)
      end
  | None => (None, None)
  end.

(** The method has a value receiver: it writes into the map the engine
    shares with its copies, and a write into the nil map panics. *)
Definition AddSkippedImage (sigstore : Sigstoreimpl) (imageHash : string)
    (selectors : slice string) : outcome Sigstoreimpl :=
  match skippedImages sigstore with
  | None => Panics "assignment to entry in nil map"
  | Some skipped =>
      Returns {| verifyFunction := verifyFunction sigstore;
                 validateImageRefFunction := validateImageRefFunction sigstore;
                 skippedImages := Some (<[imageHash := selectors]> skipped) |}
  end.

Definition ClearSkipList (sigstore : Sigstoreimpl) : Sigstoreimpl :=
  {| verifyFunction := verifyFunction sigstore;
     validateImageRefFunction := validateImageRefFunction sigstore;
     skippedImages := (fun _ : gmap string (slice string) => ∅) <$> skippedImages sigstore |}.

End Engine.

End SigstoreSkipList.

(** ** Package sigstore, the version that fetches signature payloads

    The version between the first one and the engine: it validates the
    digest of the image and takes the rekor URL with each fetch. *)
Module SigstoreSignatures.

Section Engine.
Context `{L : Imports}.

Record Sigstoreimpl : Type := mkSigstore {
  verifyFunction :
    Reference -> CheckOpts CertPool -> slice (option Signature) * bool * option error;
}.

Definition New : Sigstoreimpl :=
  {| verifyFunction := cosign_VerifyImageSignatures |}.

Definition validateRefDigest (ref : Reference) (digest : string) : bool * option error :=
  match ref with
  | RefDigest dgst =>
      if decide (DigestStr dgst = digest) then (true, None)
      else (false, None)
  | RefTag _ =>
      (* do nothing is ref is a Tag *)
      (false, None)
  end.

Definition validateImage (ref : Reference) : bool * option error :=
  match remote_Get ref with
  | Err err => (false, Some err)
  | Ok desc =>
      match v1_SHA256 (elems (Manifest desc)) with
      | Err err => (false, Some err)
      | Ok hash => validateRefDigest ref (Hash_String hash)
      end
  end.

(** [err.Error()] of an error that may be nil. *)
Definition Error (err : option error) : outcome string :=
  match err with
  | Some e => Returns e
  | None => Panics nil_dereference
  end.

(** FetchSignaturePayload retrieves the signature payload from the
    specified image *)
Definition FetchSignaturePayload (sigstore : Sigstoreimpl) (imageName rekorURL : string)
    : outcome (slice (option Signature) * option error) :=
  match name_ParseReference imageName with
  | Err err => Returns (None, Some (errors_New ("Error parsing image reference: " +:+ err)))
  | Ok ref =>
      let '(ok, err) := validateImage ref in
      if negb ok || bool_decide (err <> None) then
        text ← Error err;
        Returns (None, Some (errors_New
                               ("Could not validate image reference digest: " +:+ text)))
      else
        match url_Parse rekorURL with
        | Err err =>
            Returns (None, Some (errors_New ("Error parsing rekor URI: " +:+ err)))
        | Ok rekorURI =>
            if decide (Scheme rekorURI <> "" /\ Scheme rekorURI <> "http"
                       /\ Scheme rekorURI <> "https")
            then Returns (None, Some (errors_New
                                        ("Invalid rekor URL Scheme: " +:+ Scheme rekorURI)))
            else
              let co :=
                {| RekorClient := {| tc_Host := Host rekorURI;
                                     tc_BasePath := Path rekorURI;
                                     tc_Schemes := [Scheme rekorURI] |};
                   RootCerts := fulcio_GetRoots |} in
              let '(sigs, ok, err) := verifyFunction sigstore ref co in
              match err with
              | Some e =>
                  Returns (None, Some (errors_New ("Error verifying signature: " +:+ e)))
              | None =>
                  if negb ok then
                    text ← Error err;
                    Returns (None, Some (errors_New ("Bundle not verified: " +:+ text)))
                  else Returns (sigs, None)
              end
        end
  end.

End Engine.

End SigstoreSignatures.

(** The stand-ins with a registry that serves the manifest, and engines of
    the two versions over them. *)
Module VariantSamples.
Import Samples.

Definition registry_imports : Imports := {|
  name_ParseReference := sample_ParseReference;
  v1_SHA256 := sample_SHA256;
  url_Parse := sample_url_Parse;
  URL_String := sample_URL_String;
  json_Unmarshal_SimpleContainerImage := sample_Unmarshal_SimpleContainerImage;
  json_Unmarshal_BundleBody := fun _ => Err "unexpected end of JSON input";
  json_Unmarshal_Optionals := sample_Unmarshal_Optionals;
  json_Marshal_SimpleContainerImages := sample_Marshal_SimpleContainerImages;
  base64_DecodeString := fun _ => Err "illegal base64 data at input byte 0";
  CertPool := unit;
  fulcio_GetRoots := tt;
  cosign_VerifyImageSignatures := fun _ _ => (None, false, Some "no matching signatures");
  remote_Get := serve_manifest;
  rekor_DefaultSchemes0 := "http";
  rekor_DefaultHost := "rekor.sigstore.dev";
  rekor_DefaultBasePath := "/";
  rekor_DefaultTransportConfig :=
    {| tc_Host := "rekor.sigstore.dev"; tc_BasePath := "/"; tc_Schemes := ["http"] |};
|}.

Definition skip_list_engine (skipped : option (gmap string (slice string)))
    (sigs : slice (option Signature)) (ok : bool) (err : option error)
    : @SigstoreSkipList.Sigstoreimpl registry_imports :=
  @SigstoreSkipList.mkSigstore registry_imports
    (answer sigs ok err)
    (@SigstoreSkipList.ValidateImage registry_imports)
    skipped.

Definition payload_engine (sigs : slice (option Signature)) (ok : bool) (err : option error)
    : @SigstoreSignatures.Sigstoreimpl registry_imports :=
  @SigstoreSignatures.mkSigstore registry_imports (answer sigs ok err).

Definition tag_reference : Reference :=
  RefTag {| TagStr := "latest"; tag_original := image_by_tag |}.

Definition digest_reference : Reference :=
  RefDigest {| DigestStr := "sha256:" +:+ hex_dump manifest;
               digest_original := image_by_digest |}.

Definition one_signature : slice (option Signature) :=
  Some [Some (signature_of (payload_with_subject "a@x.com") None)].

End VariantSamples.

(** * Properties *)

(** ** The cache *)
Section CacheFacts.
Import SigstoreCache.
Context {V : Type}.
Implicit Types (c : Cacheimpl V) (i : Item V) (l : list (Item V)) (k : string).

Lemma getElement_None c k : getElement c k = None <-> k ∉ Key <$> items c.
Proof.
  unfold getElement. rewrite list_find_None, Forall_forall, list_elem_of_fmap.
  split.
  - intros H [x [-> Hx]]. by apply (H x).
  - intros H x Hx Hk. apply H. by exists x.
Qed.

Lemma getElement_Some c k e :
  getElement c k = Some e -> items c !! e.1 = Some e.2 /\ Key e.2 = k.
Proof.
  destruct e as [n x]. unfold getElement. rewrite list_find_Some.
  by intros (Hn & Hk & _).
Qed.

Lemma getElement_cached c k : snd <$> getElement c k = cached (items c) k.
Proof. reflexivity. Qed.

Lemma GetSignature_cached c k : (GetSignature c k).1 = cached (items c) k.
Proof.
  rewrite <- getElement_cached. unfold GetSignature.
  by destruct (getElement c k).
Qed.

Lemma MoveToFront_length l (e : list_.Element (Item V)) :
  l !! e.1 = Some e.2 -> length (list_.MoveToFront l e) = length l.
Proof.
  intros H. unfold list_.MoveToFront. cbn [length].
  rewrite length_delete by eauto.
  apply lookup_lt_Some in H. lia.
Qed.

Lemma MoveToFront_Permutation l (e : list_.Element (Item V)) :
  l !! e.1 = Some e.2 -> list_.MoveToFront l e ≡ₚ l.
Proof. intros H. symmetry. by apply delete_Permutation. Qed.

Lemma GetSignature_size c k : size (GetSignature c k).2 = size c.
Proof. unfold GetSignature. by destruct (getElement c k). Qed.

Lemma GetSignature_Permutation c k : items (GetSignature c k).2 ≡ₚ items c.
Proof.
  unfold GetSignature. destruct (getElement c k) as [e|] eqn:He; [|done].
  apply getElement_Some in He as [He _]. by apply MoveToFront_Permutation.
Qed.

Lemma Back_Some l (e : list_.Element (Item V)) :
  list_.Back l = Some e -> l = list_.Remove l e ++ [e.2].
Proof.
  unfold list_.Back, list_.Remove. intros H.
  destruct (last l) as [x|] eqn:Hl; simplify_eq/=.
  apply last_Some in Hl as [l' ->].
  rewrite length_app, Nat.add_1_r. cbn [pred].
  replace (l' ++ [x]) with (l' ++ x :: []) by done.
  by rewrite delete_middle, app_nil_r.
Qed.

Lemma Back_None l : list_.Back l = None -> l = [].
Proof.
  unfold list_.Back. destruct (last l) eqn:Hl; [done|].
  intros _. by apply last_None.
Qed.

(** What a PutSignature that returns leaves in the cache, case by case. *)
Lemma PutSignature_existing c i e :
  getElement c (Key i) = Some e ->
  PutSignature c i = Returns {| size := size c; items := e.2 :: delete e.1 (items c) |}.
Proof. intros H. unfold PutSignature. by rewrite H. Qed.

Lemma PutSignature_room c i :
  getElement c (Key i) = None -> list_.Len (items c) <> size c ->
  PutSignature c i = Returns {| size := size c; items := i :: items c |}.
Proof.
  intros H Hn. unfold PutSignature. rewrite H.
  destruct (Z.eqb_spec (list_.Len (items c)) (size c)); done.
Qed.

Lemma PutSignature_full c i l x :
  getElement c (Key i) = None -> list_.Len (items c) = size c ->
  items c = l ++ [x] ->
  PutSignature c i = Returns {| size := size c; items := i :: l |}.
Proof.
  intros H Hn Hl. unfold PutSignature. rewrite H, Hn, Z.eqb_refl.
  destruct (list_.Back (items c)) as [e|] eqn:Hb.
  - apply Back_Some in Hb. rewrite Hl in Hb at 1.
    apply app_inj_tail in Hb as [<- _]. done.
  - apply Back_None in Hb. rewrite Hb in Hl. by destruct l.
Qed.


Lemma GetSignature_within_capacity c k :
  within_capacity c -> within_capacity (GetSignature c k).2.
Proof.
  unfold within_capacity, list_.Len.
  rewrite GetSignature_size, (Permutation_length (GetSignature_Permutation c k)).
  done.
Qed.

Lemma PutSignature_within_capacity c i :
  1 <= size c -> within_capacity c ->
  exists c', PutSignature c i = Returns c' /\ size c' = size c /\ within_capacity c'.
Proof.
  unfold within_capacity, list_.Len. intros Hs Hc.
  destruct (getElement c (Key i)) as [e|] eqn:He.
  - eexists. split; [by apply PutSignature_existing|]. split; [done|]. simpl.
    apply getElement_Some in He as [He _].
    pose proof (MoveToFront_length _ _ He) as Hlen.
    unfold list_.MoveToFront in Hlen. simpl in Hlen. lia.
  - destruct (decide (list_.Len (items c) = size c)) as [Hfull|Hroom].
    + destruct (list_.Back (items c)) as [e|] eqn:Hb.
      * apply Back_Some in Hb.
        eexists. split; [by eapply PutSignature_full|]. split; [done|]. simpl.
        rewrite Hb, length_app in Hc. simpl in Hc. lia.
      * apply Back_None in Hb. unfold list_.Len in Hfull.
        rewrite Hb in Hfull. simpl in Hfull. lia.
    + eexists. split; [by apply PutSignature_room|]. split; [done|]. simpl.
      unfold list_.Len in Hroom. lia.
Qed.

Lemma run_within_capacity ops : forall c,
  1 <= size c -> within_capacity c ->
  exists c', run c ops = Returns c' /\ size c' = size c /\ within_capacity c'.
Proof.
  induction ops as [|op ops IH]; intros c Hs Hc; [by exists c|].
  destruct op as [k|i]; simpl.
  - destruct (IH (GetSignature c k).2) as (c' & Hrun & Hsz & Hin).
    + by rewrite GetSignature_size.
    + by apply GetSignature_within_capacity.
    + exists c'. rewrite GetSignature_size in Hsz. done.
  - destruct (PutSignature_within_capacity c i Hs Hc) as (c1 & -> & Hs1 & Hc1).
    destruct (IH c1) as (c' & Hrun & Hsz & Hin); [lia|done|].
    exists c'. split; [done|]. split; [congruence|done].
Qed.

(** The keys in the cache were all put there. *)
Lemma delete_keys l n k : k ∈ Key <$> delete n l -> k ∈ Key <$> l.
Proof.
  rewrite !list_elem_of_fmap. intros (x & -> & Hx). exists x. split; [done|].
  by apply (list_subseteq_delete n l).
Qed.

Lemma PutSignature_keys c i c' k :
  PutSignature c i = Returns c' -> k ∈ Key <$> items c' ->
  k = Key i \/ k ∈ Key <$> items c.
Proof.
  intros H. destruct (getElement c (Key i)) as [e|] eqn:He.
  - rewrite (PutSignature_existing _ _ _ He) in H. simplify_eq/=.
    apply getElement_Some in He as [He ->].
    rewrite elem_of_cons. intros [->|Hk]; [by left|]. right. by eapply delete_keys.
  - destruct (decide (list_.Len (items c) = size c)) as [Hfull|Hroom].
    + destruct (list_.Back (items c)) as [e|] eqn:Hb.
      * apply Back_Some in Hb.
        rewrite (PutSignature_full _ _ _ _ He Hfull Hb) in H. simplify_eq/=.
        rewrite elem_of_cons. intros [->|Hk]; [by left|]. right. by eapply delete_keys.
      * apply Back_None in Hb. unfold PutSignature in H.
        rewrite He, Hfull, Z.eqb_refl in H. unfold list_.Back in H.
        rewrite Hb in H. done.
    + rewrite (PutSignature_room _ _ He Hroom) in H. simplify_eq/=.
      rewrite elem_of_cons. tauto.
Qed.

Lemma run_keys ops : forall c c' k,
  run c ops = Returns c' -> k ∈ Key <$> items c' ->
  k ∈ put_keys ops \/ k ∈ Key <$> items c.
Proof.
  induction ops as [|op ops IH]; intros c c' k H Hk; simpl in H.
  - simplify_eq. by right.
  - destruct op as [q|i]; simpl in H.
    + destruct (IH _ _ _ H Hk) as [Hp|Hc]; [by left|]. right.
      by rewrite (GetSignature_Permutation c q) in Hc.
    + destruct (PutSignature c i) as [c1|] eqn:Hput; [|done]. simpl in H.
      destruct (IH _ _ _ H Hk) as [Hp|Hc].
      * left. unfold put_keys. simpl. by apply elem_of_cons; right.
      * destruct (PutSignature_keys _ _ _ _ Hput Hc) as [->|Hc'].
        -- left. unfold put_keys. simpl. by apply elem_of_cons; left.
        -- by right.
Qed.

Lemma cached_None l k : k ∉ Key <$> l -> cached l k = None.
Proof.
  intros H. unfold cached.
  pose proof (getElement_None {| size := 0; items := l |} k) as Hn.
  unfold getElement in Hn. simpl in Hn. by rewrite (proj2 Hn H).
Qed.

Lemma cached_Some l i : NoDup (Key <$> l) -> i ∈ l -> cached l (Key i) = Some i.
Proof.
  intros Hnd Hi. unfold cached.
  destruct (list_find (fun x => Key x = Key i) l) as [[n x]|] eqn:Hf.
  - apply list_find_Some in Hf as (Hn & Hk & _). simpl. f_equal.
    apply list_elem_of_lookup in Hi as [m Hm].
    assert (n = m) as ->; [|congruence].
    eapply NoDup_lookup; [exact Hnd| |]; rewrite list_lookup_fmap.
    + by rewrite Hn.
    + rewrite Hm. simpl. by rewrite Hk.
  - apply list_find_None in Hf. rewrite Forall_forall in Hf.
    by destruct (Hf i Hi).
Qed.

Lemma cached_Permutation l l' k :
  NoDup (Key <$> l) -> l ≡ₚ l' -> cached l k = cached l' k.
Proof.
  intros Hnd Hp.
  assert (NoDup (Key <$> l')) as Hnd' by by rewrite <- Hp.
  destruct (cached l' k) as [i|] eqn:Hc.
  - unfold cached in Hc.
    destruct (list_find (fun x => Key x = k) l') as [[n x]|] eqn:Hf; simplify_eq/=.
    apply list_find_Some in Hf as (Hn & <- & _).
    apply cached_Some; [done|]. rewrite Hp. by eapply list_elem_of_lookup_2.
  - apply cached_None. unfold cached in Hc.
    destruct (list_find (fun x => Key x = k) l') as [[n x]|] eqn:Hf; [done|].
    apply list_find_None in Hf. rewrite Forall_forall in Hf.
    rewrite list_elem_of_fmap. intros (x & -> & Hx). rewrite Hp in Hx.
    by apply (Hf x).
Qed.

(** Lookups reorder the list and leave its entries as they are. *)
Lemma GetAll_cached l probes : forall c,
  NoDup (Key <$> l) -> items c ≡ₚ l -> GetAll c probes = cached l <$> probes.
Proof.
  induction probes as [|k probes IH]; intros c Hnd Hp; [done|].
  simpl. f_equal.
  - rewrite GetSignature_cached. symmetry. apply cached_Permutation; [done|].
    by symmetry.
  - apply IH; [done|]. by rewrite GetSignature_Permutation.
Qed.

(** Distinct keys put while there is room pile up at the front. *)
Lemma PutAll_room its : forall c,
  NoDup (Key <$> (its ++ items c)) ->
  Z.of_nat (length its + length (items c)) <= size c ->
  PutAll c its = Returns {| size := size c; items := reverse its ++ items c |}.
Proof.
  induction its as [|i its IH]; intros c Hnd Hlen.
  - simpl. by destruct c.
  - simpl in *. apply NoDup_cons in Hnd as [Hi Hnd].
    rewrite PutSignature_room.
    + simpl. rewrite IH; simpl.
      * by rewrite reverse_cons, <- app_assoc.
      * rewrite fmap_app in *. simpl. apply NoDup_app in Hnd as (H1 & H2 & H3).
        apply NoDup_app. split; [done|]. split.
        -- intros x Hx. rewrite elem_of_cons. intros [->|Hx']; [|by eapply H2].
           apply Hi. apply elem_of_app. by left.
        -- apply NoDup_cons. split; [|done]. intros Hx. apply Hi.
           apply elem_of_app. by right.
      * lia.
    + apply getElement_None. intros Hx. apply Hi. rewrite fmap_app.
      apply elem_of_app. by right.
    + unfold list_.Len. lia.
Qed.

Lemma PutAll_app its1 its2 c :
  PutAll c (its1 ++ its2) = c' ← PutAll c its1; PutAll c' its2.
Proof.
  revert c. induction its1 as [|i its1 IH]; intros c; [done|].
  simpl. destruct (PutSignature c i) as [c1|]; simpl; [apply IH|done].
Qed.

(** Filling a cache of capacity [N >= 1] with [N + 1] distinct keys leaves
    the last [N] of them, most recent first. *)
Lemma PutAll_overflow (N : Z) (first : Item V) (rest : list (Item V)) :
  1 <= N -> NoDup (Key <$> first :: rest) -> length rest = Z.to_nat N ->
  PutAll (NewCache N) (first :: rest) = Returns {| size := N; items := reverse rest |}.
Proof.
  intros HN Hnd Hlen.
  destruct (decide (rest = [])) as [->|Hne]; [simpl in Hlen; lia|].
  destruct (exists_last Hne) as (body & z & ->).
  rewrite length_app in Hlen. simpl in Hlen.
  rewrite app_comm_cons, PutAll_app.
  rewrite fmap_cons, fmap_app in Hnd. simpl in Hnd.
  assert (NoDup (Key <$> first :: body) /\ Key z ∉ Key <$> first :: body) as [Hnd1 Hz].
  { rewrite app_comm_cons in Hnd. apply NoDup_app in Hnd as (H1 & H2 & _).
    split; [done|]. intros Hx. apply (H2 _ Hx). by apply list_elem_of_singleton. }
  rewrite PutAll_room; simpl.
  - rewrite app_nil_r. rewrite (PutSignature_full _ _ (reverse body) first); simpl.
    + by rewrite reverse_app.
    + apply getElement_None. simpl. by rewrite fmap_reverse, elem_of_reverse.
    + unfold list_.Len. rewrite length_reverse. simpl. lia.
    + by rewrite reverse_cons.
  - by rewrite app_nil_r.
  - lia.
Qed.

Lemma removelast_Remove l (e : list_.Element (Item V)) :
  list_.Back l = Some e -> list_.Remove l e = removelast l.
Proof.
  intros H. apply Back_Some in H. rewrite H at 2. by rewrite removelast_last.
Qed.

(** C1: PutSignature of an item whose key is cached moves the cached
    entry to the front and stores nothing: the entry, value included, is
    the one that was there, and the lookup that follows returns it, not
    the item that was put. *)
Theorem PutSignature_existing_key_keeps_old_value c i e :
  getElement c (Key i) = Some e ->
  exists c', PutSignature c i = Returns c'
             /\ head (items c') = Some e.2
             /\ (GetSignature c' (Key i)).1 = Some e.2.
Proof.
  intros He. eexists. split; [by apply PutSignature_existing|].
  apply getElement_Some in He as [_ Hk]. split; [done|].
  unfold GetSignature, getElement. simpl.
  destruct (decide (Key e.2 = Key i)) as [_|Hne]; [done|]. by destruct Hne.
Qed.

(** A lookup of a cached key returns its entry and moves it to the front,
    keeping every entry. *)
Theorem GetSignature_refreshes c k e :
  getElement c k = Some e ->
  (GetSignature c k).1 = Some e.2
  /\ head (items (GetSignature c k).2) = Some e.2
  /\ items (GetSignature c k).2 ≡ₚ items c.
Proof.
  intros He. split; [|split].
  - unfold GetSignature. by rewrite He.
  - unfold GetSignature. by rewrite He.
  - apply GetSignature_Permutation.
Qed.

(** C5 (amended): for a cache of capacity N >= 1, after N+1 items with
    distinct keys were put in order with no lookup in between, a lookup of
    the first key returns nil and a lookup of each of the other N keys
    returns the item put under it, also when the lookups follow one another
    on the same cache; and in a cache reached by any calls from an empty one
    of any capacity, a lookup of a key that was never put returns nil. *)
Theorem LRU_eviction_after_overflow (N : Z) (first : Item V) (rest : list (Item V)) :
  1 <= N -> NoDup (Key <$> first :: rest) -> length rest = Z.to_nat N ->
  (exists c,
      PutAll (NewCache N) (first :: rest) = Returns c
      /\ (GetSignature c (Key first)).1 = None
      /\ (forall i, i ∈ rest -> (GetSignature c (Key i)).1 = Some i)
      /\ (forall probes, GetAll c probes = cached rest <$> probes))
  /\ (forall (M : Z) (ops : list (call V)) c k,
        run (NewCache M) ops = Returns c -> k ∉ put_keys ops ->
        (GetSignature c k).1 = None).
Proof.
  intros HN Hnd Hlen. split.
  - exists {| size := N; items := reverse rest |}.
    apply NoDup_cons in Hnd as [Hfirst Hrest].
    assert (NoDup (Key <$> reverse rest)) as Hrev
      by by rewrite fmap_reverse, reverse_Permutation.
    split; [apply PutAll_overflow; [done| |done]; by apply NoDup_cons|].
    split; [|split].
    + rewrite GetSignature_cached. simpl. apply cached_None.
      by rewrite fmap_reverse, elem_of_reverse.
    + intros i Hi. rewrite GetSignature_cached. simpl.
      apply cached_Some; [done|]. by apply elem_of_reverse.
    + intros probes. apply GetAll_cached; [done|]. simpl. apply reverse_Permutation.
  - intros M ops c k Hrun Hk. rewrite GetSignature_cached. apply cached_None.
    intros Hin. destruct (run_keys _ _ _ _ Hrun Hin) as [H|H]; [done|].
    simpl in H. by apply elem_of_nil in H.
Qed.

(** C10: in a cache made by NewCache(N) with N >= 1, every sequence of
    GetSignature and PutSignature calls returns and leaves at most N items;
    PutSignature of a key that is present leaves the number of items as it
    was, and PutSignature of a new key into a full cache removes the back
    element and then pushes the item at the front. *)
Theorem item_count_never_exceeds_capacity (N : Z) (ops : list (call V)) :
  1 <= N ->
  (exists c, run (NewCache N) ops = Returns c
             /\ size c = N /\ list_.Len (items c) <= N)
  /\ (forall c i e, getElement c (Key i) = Some e ->
        exists c', PutSignature c i = Returns c'
                   /\ length (items c') = length (items c))
  /\ (forall c i, size c = N -> getElement c (Key i) = None ->
        list_.Len (items c) = size c ->
        PutSignature c i
        = Returns {| size := N; items := i :: removelast (items c) |}).
Proof.
  intros HN. split; [|split].
  - destruct (run_within_capacity ops (NewCache N)) as (c & Hrun & Hs & Hc).
    + done.
    + unfold within_capacity. simpl. unfold list_.Len. simpl. lia.
    + exists c. unfold within_capacity in Hc. simpl in *. split; [done|].
      split; [done|lia].
  - intros c i e He. eexists. split; [by apply PutSignature_existing|].
    apply getElement_Some in He as [He _]. by apply MoveToFront_length.
  - intros c i Hs He Hfull.
    destruct (list_.Back (items c)) as [e|] eqn:Hb.
    + rewrite <- (removelast_Remove _ _ Hb), <- Hs.
      eapply PutSignature_full; [done|done|]. by apply Back_Some.
    + apply Back_None in Hb. unfold list_.Len in Hfull.
      rewrite Hb in Hfull. simpl in Hfull. lia.
Qed.

End CacheFacts.

Section CacheExamples.
Import SigstoreCache Samples.

(** C1, on the last put of TestCacheimpl_PutSignature: item4 is put under
    the key of the cached item3, and item3 is what a lookup returns. *)
Lemma PutSignature_existing_key_keeps_old_value_witness :
  exists c',
    PutSignature {| size := 2; items := [item3; item1] |} item4 = Returns c'
    /\ head (items c') = Some item3
    /\ (GetSignature c' "signature3").1 = Some item3.
Proof.
  exact (PutSignature_existing_key_keeps_old_value
           {| size := 2; items := [item3; item1] |} item4 (0%nat, item3) eq_refl).
Defined.

(** The calls of TestCacheimpl_PutSignature, and the lookup it ends with. *)
Example TestCacheimpl_PutSignature_calls :
  (c ← PutAll (NewCache 2) [item1; item2; item1; item3; item4];
   Returns ((GetSignature c (Key item4)).1, Key <$> items c))
  = Returns (Some item3, ["signature3"; "signature1"]).
Proof. reflexivity. Qed.

(** C5 as stated, at capacity 0: the first put panics at the removal of
    the back element of an empty list, so nothing is looked up after it. *)
Lemma LRU_eviction_fails_at_capacity_zero :
  PutAll (NewCache 0) [item1] = Panics nil_dereference
  /\ ~ (exists c, PutAll (NewCache 0) [item1] = Returns c
                  /\ (GetSignature c (Key item1)).1 = None).
Proof. split; [reflexivity|]. by intros (c & H & _). Qed.

(** C5, on the items of the test with capacity 2. *)
Lemma LRU_eviction_after_overflow_witness :
  exists c,
    PutAll (NewCache 2) [item1; item2; item3] = Returns c
    /\ (GetSignature c "signature1").1 = None
    /\ (forall i, i ∈ [item2; item3] -> (GetSignature c (Key i)).1 = Some i)
    /\ (forall probes, GetAll c probes = cached [item2; item3] <$> probes).
Proof.
  refine (proj1 (LRU_eviction_after_overflow 2 item1 [item2; item3] _ _ _)).
  - lia.
  - apply (bool_decide_unpack _). vm_compute. exact I.
  - reflexivity.
Defined.

Lemma GetSignature_refreshes_witness :
  (GetSignature {| size := 2; items := [item2; item1] |} "signature1").1 = Some item1
  /\ head (items (GetSignature {| size := 2; items := [item2; item1] |} "signature1").2)
     = Some item1
  /\ items (GetSignature {| size := 2; items := [item2; item1] |} "signature1").2
     ≡ₚ [item2; item1].
Proof.
  exact (GetSignature_refreshes {| size := 2; items := [item2; item1] |} "signature1"
           (1%nat, item1) eq_refl).
Defined.

(** C10, on the calls of the test with a lookup added. *)
Lemma item_count_never_exceeds_capacity_witness :
  exists c,
    run (NewCache 2)
      [CallPut item1; CallPut item2; CallPut item1; CallGet "signature2";
       CallPut item3; CallPut item4] = Returns c
    /\ size c = 2 /\ list_.Len (items c) <= 2.
Proof.
  refine (proj1 (item_count_never_exceeds_capacity 2 _ _)). lia.
Defined.

End CacheExamples.

(** ** The engine *)
Section EngineFacts.
Import SigstoreCache Sigstore.
Context `{L : Imports}.
Implicit Types (sigstore : Sigstoreimpl) (ref : Reference).

Lemma validateRefDigest_true ref digest :
  validateRefDigest ref digest = (true, None)
  <-> exists d, ref = RefDigest d /\ DigestStr d = digest.
Proof.
  unfold validateRefDigest. destruct ref as [t|d].
  - split; [done|]. by intros (d & ? & _).
  - destruct (decide (DigestStr d = digest)) as [Hd|Hd].
    + split; [by exists d|done].
    + split; [done|]. intros (d' & ? & ?). by simplify_eq.
Qed.

Lemma validateRefDigest_error_or_true ref digest :
  validateRefDigest ref digest = (true, None)
  \/ exists e, validateRefDigest ref digest = (false, Some e).
Proof.
  unfold validateRefDigest. destruct ref as [t|d]; [by eauto|].
  destruct (decide (DigestStr d = digest)); by eauto.
Qed.

Lemma ValidateImage_error_or_true sigstore ref :
  ValidateImage sigstore ref = (true, None)
  \/ exists e, ValidateImage sigstore ref = (false, Some e).
Proof.
  unfold ValidateImage.
  destruct (fetchImageManifestFunction sigstore ref) as [desc|e]; [|by eauto].
  destruct (Manifest desc) as [m|]; [|by eauto].
  destruct (v1_SHA256 m) as [h|e]; [|by eauto].
  apply validateRefDigest_error_or_true.
Qed.

(** C8: ValidateImage returns true exactly when the reference is a digest
    reference and the SHA-256 hash of the fetched manifest, as text, equals
    its digest; every other result is false with an error, among them the
    mismatch of the two digests and every reference that is a tag. *)
Theorem ValidateImage_checks_manifest_digest sigstore ref :
  (ValidateImage sigstore ref = (true, None)
   <-> exists d desc m h,
         ref = RefDigest d
         /\ fetchImageManifestFunction sigstore ref = Ok desc
         /\ Manifest desc = Some m
         /\ v1_SHA256 m = Ok h
         /\ DigestStr d = Hash_String h)
  /\ (ValidateImage sigstore ref = (true, None)
      \/ exists e, ValidateImage sigstore ref = (false, Some e))
  /\ (forall d desc m h,
        ref = RefDigest d ->
        fetchImageManifestFunction sigstore ref = Ok desc ->
        Manifest desc = Some m ->
        v1_SHA256 m = Ok h ->
        DigestStr d <> Hash_String h ->
        ValidateImage sigstore ref
        = (false, Some ("Digest " +:+ Hash_String h +:+ " does not match " +:+ DigestStr d)))
  /\ (forall t, ref = RefTag t ->
        exists e, ValidateImage sigstore ref = (false, Some e)).
Proof.
  split; [|split; [|split]].
  - unfold ValidateImage. split.
    + destruct (fetchImageManifestFunction sigstore ref) as [desc|e]; [|done].
      destruct (Manifest desc) as [m|] eqn:Hm; [|done].
      destruct (v1_SHA256 m) as [h|e] eqn:Hh; [|done].
      intros (d & -> & Hd)%validateRefDigest_true. by exists d, desc, m, h.
    + intros (d & desc & m & h & -> & -> & -> & -> & Hd).
      apply validateRefDigest_true. by exists d.
  - apply ValidateImage_error_or_true.
  - intros d desc m h -> Hf Hm Hh Hd. unfold ValidateImage.
    rewrite Hf, Hm, Hh. simpl. by destruct (decide (DigestStr d = Hash_String h)).
  - intros t ->. destruct (ValidateImage_error_or_true sigstore (RefTag t)) as [H|H]; [|done].
    unfold ValidateImage in H.
    destruct (fetchImageManifestFunction sigstore (RefTag t)) as [desc|e]; [|done].
    destruct (Manifest desc) as [m|]; [|done].
    by destruct (v1_SHA256 m).
Qed.

(** C2: FetchImageSignatures returns an error and the nil list whenever
    the verify function, on the parsed reference and the engine's options,
    returns an error or verified = false, whatever signatures come with it;
    it returns a list with a nil error only when the verify function
    returned that list with a nil error and verified = true. *)
Theorem FetchImageSignatures_requires_verification sigstore (imageName : string) :
  (forall ref sigs ok err,
      name_ParseReference imageName = Ok ref ->
      verifyFunction sigstore ref (checkOpts sigstore) = (sigs, ok, err) ->
      err <> None \/ ok = false ->
      exists e, FetchImageSignatures sigstore imageName = (None, Some e))
  /\ (forall sigs,
        FetchImageSignatures sigstore imageName = (sigs, None) ->
        exists ref,
          name_ParseReference imageName = Ok ref
          /\ ValidateImage sigstore ref = (true, None)
          /\ verifyFunction sigstore ref (checkOpts sigstore) = (sigs, true, None))
  /\ (forall sigs e,
        FetchImageSignatures sigstore imageName = (sigs, Some e) -> sigs = None).
Proof.
  unfold FetchImageSignatures. split; [|split].
  - intros ref sigs ok err -> Hv Hbad.
    destruct (ValidateImage sigstore ref) as [b [e|]]; [by eauto|].
    rewrite Hv. destruct err as [e|]; [by eauto|].
    destruct Hbad as [Hne | ->]; [done|]. by eauto.
  - intros sigs H.
    destruct (name_ParseReference imageName) as [ref|e]; [|done].
    exists ref. split; [done|].
    destruct (ValidateImage_error_or_true sigstore ref) as [Hval|[e Hval]];
      rewrite Hval in H; [|done].
    split; [done|].
    destruct (verifyFunction sigstore ref (checkOpts sigstore)) as [[sigs' ok] [e|]];
      [done|].
    destruct ok; by simplify_eq/=.
  - intros sigs e H.
    destruct (name_ParseReference imageName) as [ref|e0]; [|by simplify_eq].
    destruct (ValidateImage sigstore ref) as [b [e1|]]; [by simplify_eq|].
    destruct (verifyFunction sigstore ref (checkOpts sigstore)) as [[sigs' ok] [e2|]];
      [by simplify_eq|].
    destruct ok; by simplify_eq/=.
Qed.

Lemma trimLeadingSlashes_double (s : string) :
  trimLeadingSlashes ("//" +:+ s) = trimLeadingSlashes s.
Proof. reflexivity. Qed.

Lemma trimLeadingSlashes_no_slash (s : string) :
  (forall rest, s <> String "/" rest) -> trimLeadingSlashes s = s.
Proof.
  destruct s as [|a rest]; [done|]. intros H. simpl.
  destruct (Ascii.ascii_dec a "/") as [->|Hne]; [by destruct (H rest)|].
  destruct a as [[] [] [] [] [] [] [] []]; done.
Qed.

Lemma trimLeadingSlashes_trimmed (s rest : string) :
  trimLeadingSlashes s <> String "/" rest.
Proof.
  induction s as [|a s IH]; [done|]. simpl.
  destruct (Ascii.ascii_dec a "/") as [->|Hne]; [done|].
  destruct a as [[] [] [] [] [] [] [] []]; try done; intros ?; simplify_eq.
Qed.

(** C3 (amended): for a signature whose payload parses, an error of the
    Cert method is returned with no subject. Otherwise the string at
    optional.subject of the payload, or the empty string when there is
    none, is the subject when the signature has no certificate, and a
    certificate overrides it: the subject is the first email address when
    the certificate lists one; with a nil email list it is the first URI
    with every leading '/' removed when the certificate lists one; with
    both lists nil it is empty. *)
Theorem getSignatureSubject_precedence (sig : Signature) (pl : list Byte.byte)
    (ss : SimpleContainerImage) :
  Payload sig = Ok pl ->
  json_Unmarshal_SimpleContainerImage pl = Ok ss ->
  (forall err, Cert sig = Err err ->
     getSignatureSubject (Some sig)
     = Returns ("", Some (errors_New ("Error acessing the certificate" +:+ err))))
  /\ (Cert sig = Ok None ->
      (forall optional subject,
          Optional ss = Some optional ->
          optional !! "subject" = Some (AnyString subject) ->
          getSignatureSubject (Some sig) = Returns (subject, None))
      /\ ((forall optional subject,
              Optional ss = Some optional ->
              optional !! "subject" <> Some (AnyString subject)) ->
          getSignatureSubject (Some sig) = Returns ("", None)))
  /\ (forall c, Cert sig = Ok (Some c) ->
        (forall email others,
            EmailAddresses c = Some (email :: others) ->
            getSignatureSubject (Some sig) = Returns (email, None))
        /\ (forall uri others,
              EmailAddresses c = None -> URIs c = Some (uri :: others) ->
              getSignatureSubject (Some sig)
              = Returns (trimLeadingSlashes (URL_String uri), None))
        /\ (EmailAddresses c = None -> URIs c = None ->
            getSignatureSubject (Some sig) = Returns ("", None))).
Proof.
  intros Hpl Hss. unfold getSignatureSubject. rewrite Hpl, Hss.
  split; [|split].
  - intros err ->. done.
  - intros ->. split.
    + intros optional subject -> ->. done.
    + intros H. destruct (Optional ss) as [optional|]; [|done].
      destruct (optional !! "subject") as [[]|] eqn:Hs; try done.
      by destruct (H optional s).
  - intros c ->. unfold certSubject. split; [|split].
    + intros email others ->. done.
    + intros uri others -> ->. done.
    + intros -> ->. done.
Qed.

Lemma extractLoop_skips sigstore (signature : option Signature) (containerID : string)
    (before after : list (option Signature)) :
  SelectorValuesFromSignature sigstore signature containerID = Returns noSelectors ->
  forall selectors,
    extractLoop sigstore (before ++ signature :: after) containerID selectors
    = extractLoop sigstore (before ++ after) containerID selectors.
Proof.
  intros Hsig. induction before as [|sig before IH]; intros selectors; simpl.
  - by rewrite Hsig.
  - destruct (SelectorValuesFromSignature sigstore sig containerID); simpl; [apply IH|done].
Qed.

(** C6 (amended): SetRekorURL accepts exactly the non-empty strings that
    url.Parse parses into a URL whose scheme is empty or https and whose
    host is non-empty, and then stores that URL; every other string, the
    empty one included, is rejected with an error and leaves the engine as
    it was. *)
Theorem SetRekorURL_accepts sigstore (rekorURL : string) :
  ((SetRekorURL sigstore rekorURL).1 = None
   <-> rekorURL <> ""
       /\ exists u, url_Parse rekorURL = Ok u
                    /\ (Scheme u = "" \/ Scheme u = "https")
                    /\ Host u <> "")
  /\ (forall u, url_Parse rekorURL = Ok u ->
        (SetRekorURL sigstore rekorURL).1 = None ->
        (SetRekorURL sigstore rekorURL).2 = with_rekorURL sigstore u)
  /\ ((SetRekorURL sigstore rekorURL).1 <> None ->
      (SetRekorURL sigstore rekorURL).2 = sigstore).
Proof.
  unfold SetRekorURL.
  destruct (decide (rekorURL = "")) as [->|Hne].
  { split; [|split]; [|done|done]. split; [done|]. by intros [? _]. }
  destruct (url_Parse rekorURL) as [u|e].
  2:{ split; [|split]; [|done|done]. split; [done|]. by intros [_ (u & ? & _)]. }
  destruct (decide (Scheme u <> "" /\ Scheme u <> "https")) as [[H1 H2]|Hs].
  { split; [|split]; [|done|done]. split; [done|].
    intros [_ (u' & ? & [?|?] & _)]; by simplify_eq. }
  destruct (decide (Host u = "")) as [Hh|Hh].
  { split; [|split]; [|done|done]. split; [done|].
    intros [_ (u' & ? & _ & ?)]; by simplify_eq. }
  split; [|split]; simpl.
  - split; [|done]. intros _. split; [done|]. exists u. split; [done|]. split; [|done].
    destruct (decide (Scheme u = "")); [by left|right].
    destruct (decide (Scheme u = "https")); [done|]. by destruct Hs.
  - intros u' ? _. by simplify_eq.
  - done.
Qed.

(** The skip list is read by ShouldSkipImage only. *)
Lemma extractLoop_skip_list sigstore (m : option (gmap string bool))
    (signatures : list (option Signature)) (containerID : string) :
  forall selectors,
    extractLoop (with_skippedImages sigstore m) signatures containerID selectors
    = extractLoop sigstore signatures containerID selectors.
Proof.
  induction signatures as [|sig signatures IH]; intros selectors; [done|].
  simpl. change (SelectorValuesFromSignature (with_skippedImages sigstore m) sig containerID)
    with (SelectorValuesFromSignature sigstore sig containerID).
  destruct (SelectorValuesFromSignature sigstore sig containerID); simpl; [apply IH|done].
Qed.

Lemma ExtractSelectorsFromSignatures_skip_list sigstore (m : option (gmap string bool))
    (signatures : slice (option Signature)) (containerID : string) :
  ExtractSelectorsFromSignatures (with_skippedImages sigstore m) signatures containerID
  = ExtractSelectorsFromSignatures sigstore signatures containerID.
Proof. destruct signatures; [apply extractLoop_skip_list|done]. Qed.

(** C9: with a skip list that is not nil and an empty image ID,
    ShouldSkipImage returns an error, which AttestContainerSignatures
    drops: the attestation is the one of the same engine without a skip
    list. It answers from the cache when the empty key is cached, and
    otherwise fetches the signatures, failing only with the error of the
    fetch. *)
Theorem AttestContainerSignatures_drops_skip_error sigstore (status : ContainerStatus)
    (skipped : gmap string bool) :
  skippedImages sigstore = Some skipped ->
  ImageID status = "" ->
  ShouldSkipImage sigstore (ImageID status) = (false, Some (errors_New "Image ID is empty"))
  /\ AttestContainerSignatures sigstore status
     = AttestContainerSignatures (ClearSkipList sigstore) status
  /\ (forall cachedSignature cache',
        GetSignature (sigstorecache sigstore) "" = (Some cachedSignature, cache') ->
        AttestContainerSignatures sigstore status
        = Returns (renderSelectors (Value cachedSignature) (ContainerID status),
                   None, cache'))
  /\ (forall sigs err,
        (GetSignature (sigstorecache sigstore) "").1 = None ->
        FetchImageSignatures sigstore "" = (sigs, Some err) ->
        AttestContainerSignatures sigstore status
        = Returns (None, Some err, sigstorecache sigstore))
  /\ (forall sigs,
        (GetSignature (sigstorecache sigstore) "").1 = None ->
        FetchImageSignatures sigstore "" = (sigs, None) ->
        AttestContainerSignatures sigstore status
        = (selectors ← ExtractSelectorsFromSignatures sigstore sigs (ContainerID status);
           cache' ← PutSignature (sigstorecache sigstore) {| Key := ""; Value := selectors |};
           Returns (renderSelectors selectors (ContainerID status), None, cache'))).
Proof.
  intros Hskip Hid.
  assert (ShouldSkipImage sigstore (ImageID status)
          = (false, Some (errors_New "Image ID is empty"))) as Hs.
  { unfold ShouldSkipImage. by rewrite Hskip, Hid. }
  split; [done|]. split.
  { unfold AttestContainerSignatures. rewrite Hs.
    change (ShouldSkipImage (ClearSkipList sigstore) (ImageID status))
      with (false, @None error).
    change (FetchImageSignatures (ClearSkipList sigstore) (ImageID status))
      with (FetchImageSignatures sigstore (ImageID status)).
    unfold ClearSkipList.
    destruct (GetSignature _ _) as [[cachedSignature|] cache']; [done|].
    destruct (FetchImageSignatures sigstore (ImageID status)) as [sigs [err|]]; [done|].
    by rewrite ExtractSelectorsFromSignatures_skip_list. }
  unfold AttestContainerSignatures. rewrite Hs, Hid. simpl.
  split; [|split].
  - intros cachedSignature cache' ->. done.
  - intros sigs err Hmiss Hfetch.
    unfold GetSignature in *.
    destruct (getElement (sigstorecache sigstore) "") as [e|]; [done|].
    by rewrite Hfetch.
  - intros sigs Hmiss Hfetch.
    unfold GetSignature in *.
    destruct (getElement (sigstorecache sigstore) "") as [e|]; [done|].
    by rewrite Hfetch.
Qed.

(** An image on the skip list is attested by the verification selector
    alone, with no lookup and no fetch: the cache is left as it was, and
    the verify function plays no part. *)
Theorem skip_listed_image_short_circuits sigstore (status : ContainerStatus)
    (skipped : gmap string bool) :
  skippedImages sigstore = Some skipped ->
  ImageID status <> "" ->
  is_Some (skipped !! ImageID status) ->
  AttestContainerSignatures sigstore status
  = Returns (Some [signatureVerifiedSelector], None, sigstorecache sigstore).
Proof.
  intros Hskip Hid [b Hb]. unfold AttestContainerSignatures, ShouldSkipImage.
  rewrite Hskip, Hb. by destruct (decide (ImageID status = "")).
Qed.

(** With the allow list enabled, a signature whose subject is not on the
    list gives the empty record, so no selector. *)
Theorem allow_list_suppresses sigstore (signature : option Signature)
    (containerID subject : string) :
  getSignatureSubject signature = Returns (subject, None) ->
  allowListEnabled sigstore = true ->
  default ∅ (subjectAllowList sigstore) !! subject = None ->
  SelectorValuesFromSignature sigstore signature containerID = Returns noSelectors.
Proof.
  intros Hs Hen Hno. unfold SelectorValuesFromSignature. rewrite Hs, Hen. simpl.
  destruct (decide (subject = "")); [done|].
  by rewrite bool_decide_eq_true_2.
Qed.

(** A signature with a subject that is not empty and is allowed (the allow
    list is disabled, or it is enabled and holds the subject) whose Bundle
    method returns a nil bundle and a nil error stops
    SelectorValuesFromSignature with a panic, at the read of the log ID of
    the bundle. *)
Theorem nil_bundle_panics sigstore (sig : Signature) (containerID subject : string) :
  getSignatureSubject (Some sig) = Returns (subject, None) ->
  subject <> "" ->
  (allowListEnabled sigstore = true ->
   is_Some (default ∅ (subjectAllowList sigstore) !! subject)) ->
  Bundle sig = Ok None ->
  SelectorValuesFromSignature sigstore (Some sig) containerID = Panics nil_dereference.
Proof.
  intros Hs Hne Hallowed Hb. unfold SelectorValuesFromSignature. rewrite Hs, Hb. simpl.
  destruct (decide (subject = "")); [done|].
  destruct (allowListEnabled sigstore); simpl; [|done].
  destruct (Hallowed eq_refl) as [b Hlisted]. rewrite Hlisted.
  by rewrite bool_decide_eq_false_2.
Qed.

(** A certificate whose email list, or whose URI list when it has no email
    list, is empty without being nil stops certSubject with a panic. *)
Lemma certSubject_empty_list_panics (c : Certificate) :
  EmailAddresses c = Some [] \/ (EmailAddresses c = None /\ URIs c = Some []) ->
  certSubject (Some c) = Panics "index out of range [0] with length 0".
Proof. unfold certSubject. by intros [->|[-> ->]]. Qed.

Lemma trimDoubleSlash_empty (s : string) :
  Specified.trimDoubleSlash s = "" -> trimLeadingSlashes s = "".
Proof.
  destruct s as [|a [|b rest]]; [done| |].
  - destruct a as [[] [] [] [] [] [] [] []]; discriminate.
  - destruct (Ascii.ascii_dec a "/") as [->|Ha].
    + destruct (Ascii.ascii_dec b "/") as [->|Hb]; [simpl; by intros ->|].
      destruct b as [[] [] [] [] [] [] [] []]; done.
    + destruct a as [[] [] [] [] [] [] [] []]; done.
Qed.

Lemma noSubject_getSignatureSubject (signature : option Signature) :
  (exists e, json_Unmarshal_SimpleContainerImage [] = Err e) ->
  Specified.noSubject signature ->
  ~ indexesEmptyList signature ->
  exists e, getSignatureSubject signature = Returns ("", e).
Proof.
  intros [e0 Hempty]. destruct signature as [sig|]; simpl; [|by eauto].
  intros [Hpl|[[e Hpl]|[(pl & e & Hpl & Hss)|(pl & ss & cert & Hpl & Hss & Hc & Hsub)]]] Hidx.
  - rewrite Hpl, Hempty. by eauto.
  - rewrite Hpl. by eauto.
  - rewrite Hpl, Hss. by eauto.
  - rewrite Hpl, Hss, Hc. destruct cert as [c|]; simpl in Hsub.
    + unfold Specified.certSubject in Hsub. unfold certSubject.
      destruct (EmailAddresses c) as [[|email emails]|] eqn:Hemail; simpl in *.
      * destruct Hidx. exists sig, pl, ss, c. by eauto 10.
      * rewrite Hsub. by eauto.
      * destruct (URIs c) as [[|uri uris]|] eqn:Huris; simpl in *.
        -- destruct Hidx. exists sig, pl, ss, c. by eauto 10.
        -- rewrite (trimDoubleSlash_empty _ Hsub). by eauto.
        -- by eauto.
    + exists None. do 2 f_equal. unfold Specified.payloadSubject in Hsub.
      destruct (Optional ss) as [optional|]; simpl in *; [|done].
      by destruct (optional !! "subject") as [[]|].
Qed.

Lemma indexesEmptyList_panics sigstore (signature : option Signature)
    (containerID : string) :
  indexesEmptyList signature ->
  SelectorValuesFromSignature sigstore signature containerID
  = Panics "index out of range [0] with length 0".
Proof.
  intros (sig & pl & ss & c & -> & Hpl & Hss & Hc & Hlist).
  unfold SelectorValuesFromSignature, getSignatureSubject. rewrite Hpl, Hss, Hc.
  by rewrite (certSubject_empty_list_panics c Hlist).
Qed.

Lemma extractLoop_panics sigstore (signature : option Signature) (containerID why : string)
    (before after : list (option Signature)) (rs : list SelectorsFromSignatures) :
  SelectorValuesFromSignature sigstore signature containerID = Panics why ->
  Forall2 (fun sig r => SelectorValuesFromSignature sigstore sig containerID = Returns r)
          before rs ->
  forall selectors,
    extractLoop sigstore (before ++ signature :: after) containerID selectors = Panics why.
Proof.
  intros Hsig Hall. induction Hall as [|sig r before rs Hr _ IH]; intros selectors; simpl.
  - by rewrite Hsig.
  - rewrite Hr. simpl. apply IH.
Qed.

Lemma extractLoop_filter sigstore (containerID : string)
    (sigs : list (option Signature)) :
  forall (rs : list SelectorsFromSignatures) selectors,
    Forall2 (fun sig r => SelectorValuesFromSignature sigstore sig containerID = Returns r)
            sigs rs ->
    extractLoop sigstore sigs containerID selectors
    = Returns (append selectors (filter (fun r => Is_true (Verified r)) rs)).
Proof.
  induction sigs as [|sig sigs IH]; intros rs selectors Hall.
  - apply Forall2_nil_inv_l in Hall as ->. simpl.
    destruct selectors as [l|]; [|done]. unfold append. simpl. by rewrite app_nil_r.
  - apply Forall2_cons_inv_l in Hall as (r & rs' & Hr & Hrs & ->).
    simpl. rewrite Hr. simpl. rewrite (IH rs') by done.
    rewrite filter_cons. destruct (Verified r); simpl.
    + f_equal. destruct selectors as [l|]; simpl.
      * unfold append. simpl. rewrite <- app_assoc. simpl.
        by destruct (filter _ rs').
      * unfold append. simpl. by destruct (filter _ rs').
    + done.
Qed.

(** C4: for a signature whose payload is empty or is not JSON, or that
    gives no subject by the payload or the certificate,
    SelectorValuesFromSignature returns the record with Verified = false
    and every field empty, and ExtractSelectorsFromSignatures goes on with
    the other signatures and returns their verified records in order, as
    if the signature were not in the batch, unless the signature carries a
    certificate whose email list, or URI list under a nil email list, is
    empty without being nil. Such a certificate gives no subject either,
    but there SelectorValuesFromSignature panics, and
    ExtractSelectorsFromSignatures with it: the records of the signatures
    before it are lost and the signatures after it are not read. *)
Theorem no_subject_gives_no_selector_or_panics sigstore (signature : option Signature)
    (containerID : string) :
  (exists e, json_Unmarshal_SimpleContainerImage [] = Err e) ->
  Specified.noSubject signature ->
  (~ indexesEmptyList signature ->
   SelectorValuesFromSignature sigstore signature containerID = Returns noSelectors
   /\ (forall before after,
         ExtractSelectorsFromSignatures sigstore (Some (before ++ signature :: after))
           containerID
         = ExtractSelectorsFromSignatures sigstore (Some (before ++ after)) containerID)
   /\ (forall before after rsb rsa,
         Forall2 (fun sig r =>
                    SelectorValuesFromSignature sigstore sig containerID = Returns r)
                 before rsb ->
         Forall2 (fun sig r =>
                    SelectorValuesFromSignature sigstore sig containerID = Returns r)
                 after rsa ->
         ExtractSelectorsFromSignatures sigstore (Some (before ++ signature :: after))
           containerID
         = Returns (append None (filter (fun r => Is_true (Verified r)) (rsb ++ rsa)))))
  /\ (indexesEmptyList signature ->
      SelectorValuesFromSignature sigstore signature containerID
      = Panics "index out of range [0] with length 0"
      /\ (forall before after rsb,
            Forall2 (fun sig r =>
                       SelectorValuesFromSignature sigstore sig containerID = Returns r)
                    before rsb ->
            ExtractSelectorsFromSignatures sigstore (Some (before ++ signature :: after))
              containerID
            = Panics "index out of range [0] with length 0")).
Proof.
  intros Hempty Hno. split.
  - intros Hidx.
    assert (SelectorValuesFromSignature sigstore signature containerID = Returns noSelectors)
      as Hsel.
    { destruct (noSubject_getSignatureSubject signature Hempty Hno Hidx) as [e He].
      unfold SelectorValuesFromSignature. rewrite He. simpl. by destruct e. }
    split; [done|]. split.
    + intros before after. simpl. by apply extractLoop_skips.
    + intros before after rsb rsa Hb Ha. unfold ExtractSelectorsFromSignatures.
      rewrite (extractLoop_skips _ _ _ _ _ Hsel).
      apply extractLoop_filter. by apply Forall2_app.
  - intros Hidx.
    pose proof (indexesEmptyList_panics sigstore signature containerID Hidx) as Hsel.
    split; [done|]. intros before after rsb Hb. unfold ExtractSelectorsFromSignatures.
    by apply (extractLoop_panics _ _ _ _ _ _ rsb).
Qed.

End EngineFacts.

(** ** The engine on concrete inputs *)
Section EngineExamples.
Import SigstoreCache Sigstore Samples.

(** C3, on the example of the design document. *)
Lemma getSignatureSubject_precedence_witness :
  getSignatureSubject
    (Some (signature_of (payload_with_subject "a@x.com") (Some (cert_with_email "b@x.com"))))
  = Returns ("b@x.com", None).
Proof.
  refine (proj1 (proj2 (proj2 (getSignatureSubject_precedence
                                 (signature_of (payload_with_subject "a@x.com")
                                               (Some (cert_with_email "b@x.com")))
                                 (payload_with_subject "a@x.com") _ eq_refl _))
                       (cert_with_email "b@x.com") eq_refl)
                "b@x.com" [] eq_refl).
  vm_compute. reflexivity.
Defined.

(** C3 as stated, on a certificate without email addresses whose first
    URI is the path /workload/id, and on a signature whose Cert method
    fails. The document's wording leaves the URI as it is, since it does
    not start with two slashes, where the code removes its one slash; and
    it keeps the subject of the payload for a signature without a
    certificate, where the code returns the error and no subject. *)
Lemma certificate_uri_loses_single_slash :
  (getSignatureSubject
     (Some (signature_of (payload_with_subject "a@x.com")
                         (Some (cert_with_uri (path_only "/workload/id")))))
   = Returns ("workload/id", None)
   /\ match json_Unmarshal_SimpleContainerImage (payload_with_subject "a@x.com") with
      | Ok ss =>
          Specified.signatureSubject ss (Some (cert_with_uri (path_only "/workload/id")))
          = "/workload/id"
      | Err _ => False
      end)
  /\ (getSignatureSubject
        (Some {| Payload := Ok (payload_with_subject "a@x.com");
                 Cert := Err "no cert test"; Bundle := Err "no bundle" |})
      = Returns ("", Some (errors_New "Error acessing the certificateno cert test"))
      /\ match json_Unmarshal_SimpleContainerImage (payload_with_subject "a@x.com") with
         | Ok ss => Specified.signatureSubject ss None = "a@x.com"
         | Err _ => False
         end).
Proof. repeat split; vm_compute; reflexivity. Qed.

(** C4, on a signature with an empty payload, and on one whose payload
    holds no subject and whose certificate has an empty email list, each
    between two signed payloads. *)
Lemma no_subject_gives_no_selector_or_panics_witness :
  (SelectorValuesFromSignature (engine None true None) (Some (signature_of [] None)) "c1"
   = Returns noSelectors
   /\ ExtractSelectorsFromSignatures (engine None true None)
        (Some ([Some (signature_of (payload_with_subject "a@x.com") None)]
               ++ Some (signature_of [] None)
               :: [Some (signature_of (payload_with_subject "b@x.com") None)])) "c1"
      = Returns (Some [selectors_of "a@x.com"; selectors_of "b@x.com"]))
  /\ (SelectorValuesFromSignature (engine None true None)
        (Some (signature_of (list_byte_of_string "{}")
                            (Some {| EmailAddresses := Some []; URIs := None |}))) "c1"
      = Panics "index out of range [0] with length 0"
      /\ ExtractSelectorsFromSignatures (engine None true None)
           (Some ([Some (signature_of (payload_with_subject "a@x.com") None)]
                  ++ Some (signature_of (list_byte_of_string "{}")
                                        (Some {| EmailAddresses := Some []; URIs := None |}))
                  :: [Some (signature_of (payload_with_subject "b@x.com") None)])) "c1"
         = Panics "index out of range [0] with length 0").
Proof.
  assert (exists e, json_Unmarshal_SimpleContainerImage [] = Err e) as Hjson.
  { eexists. vm_compute. reflexivity. }
  split.
  - assert (Specified.noSubject (Some (signature_of [] None))) as Hno.
    { left. reflexivity. }
    assert (~ indexesEmptyList (Some (signature_of [] None))) as Hidx.
    { intros (sig & pl & ss & c & Hsig & _ & _ & Hc & _).
      injection Hsig as <-. discriminate Hc. }
    destruct (proj1 (no_subject_gives_no_selector_or_panics (engine None true None)
                       (Some (signature_of [] None)) "c1" Hjson Hno) Hidx)
      as (Hsel & _ & Hbatch).
    split; [exact Hsel|].
    apply (Hbatch [Some (signature_of (payload_with_subject "a@x.com") None)]
                  [Some (signature_of (payload_with_subject "b@x.com") None)]
                  [selectors_of "a@x.com"] [selectors_of "b@x.com"]).
    + apply Forall2_cons_2; [vm_compute; reflexivity | apply Forall2_nil_2].
    + apply Forall2_cons_2; [vm_compute; reflexivity | apply Forall2_nil_2].
  - assert (Specified.noSubject
              (Some (signature_of (list_byte_of_string "{}")
                                  (Some {| EmailAddresses := Some []; URIs := None |}))))
      as Hno.
    { right. right. right. eexists _, _, _. split; [reflexivity|].
      split; [vm_compute; reflexivity|]. split; reflexivity. }
    assert (indexesEmptyList
              (Some (signature_of (list_byte_of_string "{}")
                                  (Some {| EmailAddresses := Some []; URIs := None |}))))
      as Hidx.
    { eexists _, _, _, _. split; [reflexivity|]. split; [reflexivity|].
      split; [vm_compute; reflexivity|]. split; [reflexivity|]. left. reflexivity. }
    destruct (proj2 (no_subject_gives_no_selector_or_panics (engine None true None)
                       (Some (signature_of (list_byte_of_string "{}")
                                (Some {| EmailAddresses := Some []; URIs := None |})))
                       "c1" Hjson Hno) Hidx)
      as [Hsel Hbatch].
    split; [exact Hsel|].
    apply (Hbatch [Some (signature_of (payload_with_subject "a@x.com") None)]
                  [Some (signature_of (payload_with_subject "b@x.com") None)]
                  [selectors_of "a@x.com"]).
    apply Forall2_cons_2; [vm_compute; reflexivity | apply Forall2_nil_2].
Defined.

(** C6 as stated, on the empty string and on a host name without a
    scheme, which url.Parse reads as a path. The document's wording accepts both; the
    code rejects both. *)
Lemma SetRekorURL_rejects_empty_and_hostless :
  (Specified.validEndpoint ""
   /\ (SetRekorURL (engine None true None) "").1 = Some (errors_New "Rekor URL is empty"))
  /\ (Specified.validEndpoint "rekor.example.com"
      /\ (SetRekorURL (engine None true None) "rekor.example.com").1
         = Some (errors_New "Invalid rekor URL Host: ")).
Proof.
  split; split.
  - by left.
  - reflexivity.
  - right. eexists. split; [vm_compute; reflexivity|]. simpl. split; [by left|done].
  - vm_compute. reflexivity.
Qed.

(** C9, on an engine that skips one image. *)
Lemma AttestContainerSignatures_drops_skip_error_witness :
  ShouldSkipImage (AddSkippedImage (engine None true None) "img") ""
  = (false, Some (errors_New "Image ID is empty"))
  /\ AttestContainerSignatures (AddSkippedImage (engine None true None) "img")
       {| ImageID := ""; ContainerID := "c1" |}
     = AttestContainerSignatures (ClearSkipList (AddSkippedImage (engine None true None) "img"))
         {| ImageID := ""; ContainerID := "c1" |}.
Proof.
  pose proof (AttestContainerSignatures_drops_skip_error
                (AddSkippedImage (engine None true None) "img")
                {| ImageID := ""; ContainerID := "c1" |}
                _ eq_refl eq_refl) as (H1 & H2 & _).
  exact (conj H1 H2).
Defined.

(** C7: an email list that is empty and not nil makes certSubject, and
    with it getSignatureSubject, panic; a payload that decodes to an empty
    or a nil array makes getOnlySubject panic, and an empty list of signed
    payloads reaches it with the text null. *)
Theorem subject_extraction_panics_on_empty_lists :
  certSubject (Some {| EmailAddresses := Some []; URIs := None |})
  = Panics "index out of range [0] with length 0"
  /\ getSignatureSubject
       (Some (signature_of (payload_with_subject "a@x.com")
                           (Some {| EmailAddresses := Some []; URIs := None |})))
     = Panics "index out of range [0] with length 0"
  /\ SigstorePayload.getOnlySubject "[]" = Panics "index out of range [0] with length 0"
  /\ SigstorePayload.getOnlySubject "null" = Panics "index out of range [0] with length 0"
  /\ SigstorePayload.ExtractselectorOfSignedImage (Some [])
     = Panics "index out of range [0] with length 0".
Proof. repeat split; vm_compute; reflexivity. Qed.

Lemma skip_listed_image_short_circuits_witness :
  AttestContainerSignatures (AddSkippedImage (engine None true None) "img")
    {| ImageID := "img"; ContainerID := "c1" |}
  = Returns (Some ["sigstore-validation:passed"], None, NewCache 10).
Proof.
  refine (skip_listed_image_short_circuits
            (AddSkippedImage (engine None true None) "img")
            {| ImageID := "img"; ContainerID := "c1" |} _ eq_refl _ _).
  - done.
  - vm_compute. by eexists.
Defined.

Lemma allow_list_suppresses_witness :
  SelectorValuesFromSignature
    (EnableAllowSubjectList (AddAllowedSubject (engine None true None) "a@x.com") true)
    (Some (signature_of (payload_with_subject "a@x.com") (Some (cert_with_email "b@x.com"))))
    "c1"
  = Returns noSelectors.
Proof.
  apply (allow_list_suppresses _ _ "c1" "b@x.com").
  - vm_compute. reflexivity.
  - reflexivity.
  - vm_compute. reflexivity.
Defined.

Lemma nil_bundle_panics_witness :
  SelectorValuesFromSignature
    (EnableAllowSubjectList (AddAllowedSubject (engine None true None) "a@x.com") true)
    (Some {| Payload := Ok (payload_with_subject "a@x.com");
             Cert := Ok None; Bundle := Ok None |}) "c1"
  = Panics nil_dereference.
Proof.
  apply (nil_bundle_panics _ _ "c1" "a@x.com").
  - vm_compute. reflexivity.
  - done.
  - intros _. exists true. vm_compute. reflexivity.
  - reflexivity.
Defined.

(** An unverified bundle is an error, signatures or not. *)
Example FetchImageSignatures_unverified_bundle :
  FetchImageSignatures
    (engine (Some [Some (signature_of (payload_with_subject "a@x.com") None)]) false None)
    image_by_digest
  = (None, Some (errors_New ("Bundle not verified for " +:+ image_by_digest))).
Proof. vm_compute. reflexivity. Qed.

Example FetchImageSignatures_tag_reference :
  FetchImageSignatures (engine (Some []) true None) image_by_tag
  = (None, Some (errors_New
       "Could not validate image reference digest: Reference registry/img:latest is not a digest")).
Proof. vm_compute. reflexivity. Qed.

(** The end-to-end example of the design document. *)
Example AttestContainerSignatures_end_to_end :
  (r ← AttestContainerSignatures
         (engine (Some [Some (signature_of (payload_with_subject "a@x.com")
                                           (Some (cert_with_email "spirex@example.com")))])
                 true None)
         {| ImageID := image_by_digest; ContainerID := "c1" |};
   Returns r.1)
  = Returns (Some ["c1:image-signature-subject:spirex@example.com";
                   "sigstore-validation:passed"], None).
Proof. vm_compute. reflexivity. Qed.

End EngineExamples.

(** ** The cache: recency and eviction *)
Section CacheRecency.
Import SigstoreCache.
Context {V : Type}.
Implicit Types (c : Cacheimpl V) (i x : Item V) (l : list (Item V)) (k : string).

Lemma cached_cons i l k :
  cached (i :: l) k = if decide (Key i = k) then Some i else cached l k.
Proof.
  unfold cached. cbn [list_find]. destruct (decide (Key i = k)) as [|Hne]; [done|].
  by destruct (list_find _ l) as [[m y]|].
Qed.

Lemma cached_snoc_ne l x k : Key x <> k -> cached (l ++ [x]) k = cached l k.
Proof.
  intros Hne. induction l as [|i l IH]; simpl.
  - rewrite cached_cons. by destruct (decide (Key x = k)).
  - rewrite !cached_cons. by destruct (decide (Key i = k)).
Qed.

(** What a put that returns leaves in the recency list. *)
Lemma PutSignature_items c i c' :
  PutSignature c i = Returns c' ->
  size c' = size c
  /\ ((exists e, getElement c (Key i) = Some e
                 /\ items c' = e.2 :: delete e.1 (items c))
      \/ (getElement c (Key i) = None
          /\ (items c' = i :: items c
              \/ exists back, items c = removelast (items c) ++ [back]
                              /\ items c' = i :: removelast (items c)))).
Proof.
  intros H. destruct (getElement c (Key i)) as [e|] eqn:He.
  - rewrite (PutSignature_existing _ _ _ He) in H. simplify_eq/=.
    split; [done|]. left. by exists e.
  - destruct (decide (list_.Len (items c) = size c)) as [Hfull|Hroom].
    + destruct (list_.Back (items c)) as [e|] eqn:Hb.
      * pose proof (removelast_Remove _ _ Hb) as Hr. apply Back_Some in Hb.
        rewrite (PutSignature_full _ _ _ _ He Hfull Hb) in H. simplify_eq/=.
        split; [done|]. right. split; [done|]. right. exists e.2.
        rewrite <- Hr. done.
      * apply Back_None in Hb. unfold PutSignature in H.
        rewrite He, Hfull, Z.eqb_refl in H. unfold list_.Back in H.
        rewrite Hb in H. done.
    + rewrite (PutSignature_room _ _ He Hroom) in H. simplify_eq/=.
      split; [done|]. right. split; [done|]. by left.
Qed.

Lemma PutSignature_NoDup c i c' :
  NoDup (Key <$> items c) -> PutSignature c i = Returns c' ->
  NoDup (Key <$> items c').
Proof.
  intros Hnd H.
  destruct (PutSignature_items _ _ _ H) as [_ [(e & He & ->)|[He [->|(back & Hb & ->)]]]].
  - apply getElement_Some in He as [He _].
    by rewrite <- (delete_Permutation _ _ _ He).
  - rewrite fmap_cons. apply NoDup_cons. split; [|done]. by apply getElement_None.
  - apply getElement_None in He. rewrite fmap_cons. apply NoDup_cons.
    rewrite Hb, fmap_app in Hnd. apply NoDup_app in Hnd as (Hnd & _ & _).
    split; [|done]. intros Hin. apply He. rewrite Hb, fmap_app.
    apply elem_of_app. by left.
Qed.

(** No key is cached twice: every cache reached from an empty one holds
    its keys once each, whatever its capacity. *)
Theorem keys_stay_distinct (N : Z) (ops : list (call V)) c :
  run (NewCache N) ops = Returns c -> NoDup (Key <$> items c).
Proof.
  assert (forall ops c0 c1, NoDup (Key <$> items c0) -> run c0 ops = Returns c1 ->
                            NoDup (Key <$> items c1)) as Hrun.
  { clear. induction ops as [|op ops IH]; intros c0 c1 Hnd H; simpl in H.
    - by simplify_eq.
    - destruct op as [k|i]; simpl in H.
      + eapply IH; [|done]. by rewrite GetSignature_Permutation.
      + destruct (PutSignature c0 i) as [c2|] eqn:Hput; [|done].
        eapply IH; [|done]. by eapply PutSignature_NoDup. }
  apply Hrun. simpl. apply NoDup_nil_2.
Qed.

Lemma PutSignature_new_key c i :
  1 <= size c -> within_capacity c -> getElement c (Key i) = None ->
  exists c', PutSignature c i = Returns c'
             /\ head (items c') = Some i
             /\ (GetSignature c' (Key i)).1 = Some i
             /\ within_capacity c'.
Proof.
  intros Hs Hc He.
  destruct (PutSignature_within_capacity c i Hs Hc) as (c' & Hput & _ & Hc').
  exists c'. split; [done|].
  assert (exists rest, items c' = i :: rest) as [rest Hrest].
  { destruct (PutSignature_items _ _ _ Hput)
      as [_ [(e & He' & _)|[_ [->|(back & _ & ->)]]]]; [congruence|by eauto..]. }
  rewrite GetSignature_cached, Hrest, cached_cons.
  split; [done|]. split; [|done]. by destruct (decide (Key i = Key i)).
Qed.


(** A new key put into a cache of capacity at least 1 is at the front
    afterwards, and a lookup returns the item that was put. *)
Theorem new_key_is_found_after_put c i :
  1 <= size c -> within_capacity c -> getElement c (Key i) = None ->
  exists c', PutSignature c i = Returns c'
             /\ head (items c') = Some i
             /\ (GetSignature c' (Key i)).1 = Some i
             /\ within_capacity c'.
Proof. apply PutSignature_new_key. Qed.

(** A put of a new key into a full cache evicts the back element and
    nothing else: the key at the back is no longer found, and every other
    key is found as before. *)
Theorem eviction_removes_only_the_back c i l x :
  NoDup (Key <$> items c) -> items c = l ++ [x] ->
  list_.Len (items c) = size c -> getElement c (Key i) = None ->
  exists c', PutSignature c i = Returns c'
             /\ (GetSignature c' (Key x)).1 = None
             /\ (GetSignature c' (Key i)).1 = Some i
             /\ forall k, k <> Key x -> k <> Key i ->
                          (GetSignature c' k).1 = (GetSignature c k).1.
Proof.
  intros Hnd Hl Hfull He. eexists. split; [by eapply PutSignature_full|].
  apply getElement_None in He. rewrite Hl, fmap_app in He, Hnd.
  apply NoDup_app in Hnd as (_ & Hx & _).
  rewrite !GetSignature_cached. simpl. rewrite !cached_cons.
  split; [|split].
  - destruct (decide (Key i = Key x)) as [Heq|_].
    + destruct He. apply elem_of_app. right. rewrite Heq. simpl.
      by apply list_elem_of_singleton.
    + apply cached_None. intros Hin. apply (Hx _ Hin). simpl.
      by apply list_elem_of_singleton.
  - by destruct (decide (Key i = Key i)).
  - intros k Hkx Hki. rewrite !GetSignature_cached. simpl. rewrite cached_cons, Hl.
    destruct (decide (Key i = k)); [congruence|].
    symmetry. by apply cached_snoc_ne.
Qed.

(** A key that was just looked up survives the next put of a new key,
    in a cache of capacity at least 2. *)
Theorem looked_up_key_survives_next_put c k e i :
  2 <= size c ->
  getElement c k = Some e -> getElement c (Key i) = None ->
  exists c', PutSignature (GetSignature c k).2 i = Returns c'
             /\ (GetSignature c' k).1 = Some e.2.
Proof.
  intros Hs He Hi.
  pose proof (getElement_Some _ _ _ He) as [Hlook Hk].
  assert (Key i <> k) as Hne.
  { intros <-. congruence. }
  set (c1 := (GetSignature c k).2).
  assert (items c1 = e.2 :: delete e.1 (items c) /\ size c1 = size c) as [Hitems Hsize].
  { unfold c1, GetSignature. by rewrite He. }
  assert (getElement c1 (Key i) = None) as Hi1.
  { apply getElement_None. unfold c1. rewrite GetSignature_Permutation.
    by apply getElement_None. }
  assert (exists c' rest, PutSignature c1 i = Returns c' /\ items c' = i :: e.2 :: rest)
    as (c' & rest & Hput & Hrest).
  { destruct (decide (list_.Len (items c1) = size c1)) as [Hfull|Hroom].
    - destruct (decide (delete e.1 (items c) = [])) as [Hd|Hd].
      + unfold list_.Len in Hfull. rewrite Hitems, Hd in Hfull. simpl in Hfull. lia.
      + destruct (exists_last Hd) as (d & x & Hdx).
        exists {| size := size c1; items := i :: e.2 :: d |}, d. split; [|done].
        apply (PutSignature_full c1 i (e.2 :: d) x); [done|done|].
        by rewrite Hitems, Hdx.
    - exists {| size := size c1; items := i :: items c1 |}, (delete e.1 (items c)).
      split; [by apply PutSignature_room|]. simpl. by rewrite Hitems. }
  exists c'. split; [done|].
  rewrite GetSignature_cached, Hrest, !cached_cons.
  destruct (decide (Key i = k)); [done|].
  by destruct (decide (Key e.2 = k)).
Qed.

Lemma PutAll_no_eviction (its : list (Item V)) : forall c,
  size c < 0 -> NoDup (Key <$> (its ++ items c)) ->
  PutAll c its = Returns {| size := size c; items := reverse its ++ items c |}.
Proof.
  induction its as [|i its IH]; intros c Hs Hnd.
  - simpl. by destruct c.
  - simpl in *. apply NoDup_cons in Hnd as [Hi Hnd].
    rewrite PutSignature_room.
    + simpl. rewrite IH; simpl.
      * by rewrite reverse_cons, <- app_assoc.
      * done.
      * rewrite fmap_app in *. simpl. apply NoDup_app in Hnd as (H1 & H2 & H3).
        apply NoDup_app. split; [done|]. split.
        -- intros y Hy. rewrite elem_of_cons. intros [->|Hy']; [|by eapply H2].
           apply Hi. apply elem_of_app. by left.
        -- apply NoDup_cons. split; [|done]. intros Hy. apply Hi.
           apply elem_of_app. by right.
    + apply getElement_None. intros Hy. apply Hi. rewrite fmap_app.
      apply elem_of_app. by right.
    + unfold list_.Len. lia.
Qed.

(** A cache made with a negative capacity never evicts: every item put
    under a new key stays, most recent first. *)
Theorem negative_capacity_never_evicts (N : Z) (its : list (Item V)) :
  N < 0 -> NoDup (Key <$> its) ->
  PutAll (NewCache N) its = Returns {| size := N; items := reverse its |}.
Proof.
  intros HN Hnd. rewrite PutAll_no_eviction; simpl.
  - by rewrite app_nil_r.
  - done.
  - by rewrite app_nil_r.
Qed.

End CacheRecency.

(** ** The engine: policy lists, selectors and the cache *)
Section EnginePolicy.
Import SigstoreCache Sigstore.
Context `{L : Imports}.
Implicit Types (sigstore : Sigstoreimpl) (ref : Reference).

(** An image ID that is added to the skip list is skipped from then on,
    other image IDs are treated as before, and after ClearSkipList nothing
    is skipped and no image ID is an error. The empty image ID can be
    added, and is an error all the same. *)
Theorem skip_list_round_trip sigstore (imageID : string) :
  imageID <> "" ->
  ShouldSkipImage (AddSkippedImage sigstore imageID) imageID = (true, None)
  /\ (forall other, other <> "" -> other <> imageID ->
        ShouldSkipImage (AddSkippedImage sigstore imageID) other
        = ShouldSkipImage sigstore other)
  /\ (forall any, ShouldSkipImage (ClearSkipList (AddSkippedImage sigstore imageID)) any
                  = (false, None))
  /\ ShouldSkipImage (AddSkippedImage sigstore "") ""
     = (false, Some (errors_New "Image ID is empty")).
Proof.
  intros Hne. unfold ShouldSkipImage, AddSkippedImage, ClearSkipList. simpl.
  split; [|split; [|split]].
  - destruct (decide (imageID = "")); [done|]. by rewrite lookup_insert_eq.
  - intros other Ho Hoi. destruct (decide (other = "")); [done|].
    rewrite lookup_insert_ne by done.
    destruct (skippedImages sigstore) as [m|]; [done|]. simpl.
    by rewrite lookup_empty.
  - done.
  - done.
Qed.

Lemma SelectorValuesFromSignature_record sigstore (signature : option Signature)
    (containerID : string) (sel : SelectorsFromSignatures) :
  SelectorValuesFromSignature sigstore signature containerID = Returns sel ->
  (Verified sel = true <-> sel_Subject sel <> "")
  /\ (Verified sel = false -> sel = noSelectors)
  /\ (Verified sel = true ->
      getSignatureSubject signature = Returns (sel_Subject sel, None)
      /\ (allowListEnabled sigstore = true ->
          is_Some (default ∅ (subjectAllowList sigstore) !! sel_Subject sel))).
Proof.
  unfold SelectorValuesFromSignature.
  destruct (getSignatureSubject signature) as [[subject [e|]]|why] eqn:Hs; simpl;
    [by intros; simplify_eq/=| |done].
  destruct (decide (subject = "")) as [->|Hne]; [by intros; simplify_eq/=|].
  destruct (allowListEnabled sigstore) eqn:Hen; simpl.
  - destruct (default ∅ (subjectAllowList sigstore) !! subject) as [b|] eqn:Hal.
    + rewrite bool_decide_eq_false_2 by done.
      destruct signature as [sig|]; [|done].
      destruct (Bundle sig) as [[bundle|]|e]; [| done |]; intros; simplify_eq/=;
        (split; [done|]); (split; [done|]); intros _; (split; [done|]); by eauto.
    + rewrite bool_decide_eq_true_2 by done. by intros; simplify_eq/=.
  - destruct signature as [sig|]; [|done].
    destruct (Bundle sig) as [[bundle|]|e]; [| done |]; intros; simplify_eq/=;
      (split; [done|]); (split; [done|]); intros _; (split; [done|]); done.
Qed.

(** The record SelectorValuesFromSignature returns is either the empty one
    or a verified one: Verified is true exactly when the subject is not
    empty, the subject is then the one getSignatureSubject gave, and with
    the allow list enabled it is on the list. *)
Theorem verified_iff_subject sigstore (signature : option Signature)
    (containerID : string) (sel : SelectorsFromSignatures) :
  SelectorValuesFromSignature sigstore signature containerID = Returns sel ->
  (Verified sel = true <-> sel_Subject sel <> "")
  /\ (Verified sel = false -> sel = noSelectors)
  /\ (Verified sel = true ->
      getSignatureSubject signature = Returns (sel_Subject sel, None)
      /\ (allowListEnabled sigstore = true ->
          is_Some (default ∅ (subjectAllowList sigstore) !! sel_Subject sel))).
Proof. apply SelectorValuesFromSignature_record. Qed.

(** For a signature whose subject is on the allow list, the enabled list
    changes nothing: the record is the one an engine with the list
    disabled returns. AddAllowedSubject puts a subject on the list. *)
Theorem allowed_subject_passes sigstore (signature : option Signature)
    (containerID subject : string) :
  getSignatureSubject signature = Returns (subject, None) ->
  (is_Some (default ∅ (subjectAllowList sigstore) !! subject) ->
   SelectorValuesFromSignature (EnableAllowSubjectList sigstore true) signature containerID
   = SelectorValuesFromSignature (EnableAllowSubjectList sigstore false) signature
       containerID)
  /\ SelectorValuesFromSignature
       (EnableAllowSubjectList (AddAllowedSubject sigstore subject) true) signature
       containerID
     = SelectorValuesFromSignature (EnableAllowSubjectList sigstore false) signature
         containerID.
Proof.
  intros Hs. unfold SelectorValuesFromSignature. rewrite Hs. simpl.
  destruct (decide (subject = "")); [done|]. split.
  - intros [b Hb]. rewrite Hb. by rewrite bool_decide_eq_false_2.
  - rewrite lookup_insert_eq. by rewrite bool_decide_eq_false_2.
Qed.

End EnginePolicy.

(** ** The engine: extraction, rendering and attestation *)
Section EngineAttestation.
Import SigstoreCache Sigstore.
Context `{L : Imports}.
Implicit Types (sigstore : Sigstoreimpl) (ref : Reference).

Lemma extractLoop_returns sigstore (containerID : string)
    (sigs : list (option Signature)) :
  forall selectors out,
    extractLoop sigstore sigs containerID selectors = Returns out ->
    exists rs,
      Forall2 (fun sig r => SelectorValuesFromSignature sigstore sig containerID = Returns r)
              sigs rs.
Proof.
  induction sigs as [|sig sigs IH]; intros selectors out H.
  - exists []. constructor.
  - simpl in H.
    destruct (SelectorValuesFromSignature sigstore sig containerID) as [r|] eqn:Hr; [|done].
    simpl in H. destruct (IH _ _ H) as [rs Hrs]. exists (r :: rs). by constructor.
Qed.

(** ExtractSelectorsFromSignatures returns, in the order of the signatures,
    the records of those that are verified: when every signature gives a
    record, the result is the list of the verified ones, and nil when
    there is none; it returns only when every signature gives a record;
    and for the nil list of signatures it returns nil. *)
Theorem ExtractSelectorsFromSignatures_keeps_verified sigstore (containerID : string)
    (sigs : list (option Signature)) :
  (forall rs,
      Forall2 (fun sig r => SelectorValuesFromSignature sigstore sig containerID = Returns r)
              sigs rs ->
      ExtractSelectorsFromSignatures sigstore (Some sigs) containerID
      = Returns (append None (filter (fun r => Is_true (Verified r)) rs)))
  /\ (forall out,
        ExtractSelectorsFromSignatures sigstore (Some sigs) containerID = Returns out ->
        exists rs,
          Forall2 (fun sig r =>
                     SelectorValuesFromSignature sigstore sig containerID = Returns r)
                  sigs rs
          /\ elems out = filter (fun r => Is_true (Verified r)) rs
          /\ Forall (fun r => Verified r = true /\ sel_Subject r <> "") (elems out)
          /\ (length (elems out) <= length sigs)%nat)
  /\ ExtractSelectorsFromSignatures sigstore None containerID = Returns None.
Proof.
  split; [|split; [|done]].
  - intros rs Hrs. unfold ExtractSelectorsFromSignatures. by apply extractLoop_filter.
  - intros out H. unfold ExtractSelectorsFromSignatures in H.
    destruct (extractLoop_returns _ _ _ _ _ H) as [rs Hrs]. exists rs.
    rewrite (extractLoop_filter _ _ _ _ None Hrs) in H.
    assert (elems out = filter (fun r => Is_true (Verified r)) rs) as ->.
    { injection H as <-. unfold append. by destruct (filter _ rs). }
    split; [done|]. split; [done|]. split.
    + apply Forall_forall. intros r [Hv Hin]%list_elem_of_filter.
      apply Is_true_true in Hv. split; [done|].
      apply list_elem_of_lookup in Hin as [n Hn].
      destruct (Forall2_lookup_r _ _ _ _ _ Hrs Hn) as (sig & _ & Hsig).
      by apply (SelectorValuesFromSignature_record _ _ _ _ Hsig).
    + rewrite (Forall2_length _ _ _ Hrs). apply length_filter.
Qed.

Lemma prefix_append (a b c : string) :
  String.prefix (a +:+ b) (a +:+ c) = String.prefix b c.
Proof.
  induction a as [|x a IH]; [done|]. simpl.
  destruct (Ascii.ascii_dec x x); [done|congruence].
Qed.

(** selectorsToString gives one string for each field that is not empty,
    four at most, in the order subject, content, log ID, integrated time,
    each starting with the container ID and :image-signature-. *)
Theorem selectorsToString_shape (selectors : SelectorsFromSignatures)
    (containerID : string) :
  length (selectorsToString selectors containerID)
  = ((if decide (sel_Subject selectors = "") then 0 else 1)
     + (if decide (sel_Content selectors = "") then 0 else 1)
     + (if decide (sel_LogID selectors = "") then 0 else 1)
     + (if decide (sel_IntegratedTime selectors = "") then 0 else 1))%nat
  /\ Forall (fun s => String.prefix (containerID +:+ ":image-signature-") s = true)
            (selectorsToString selectors containerID)
  /\ (sel_Subject selectors <> "" ->
      head (selectorsToString selectors containerID)
      = Some (containerID +:+ ":image-signature-subject:" +:+ sel_Subject selectors)).
Proof.
  unfold selectorsToString.
  destruct (decide (sel_Subject selectors = "")),
           (decide (sel_Content selectors = "")),
           (decide (sel_LogID selectors = "")),
           (decide (sel_IntegratedTime selectors = ""));
    (split; [done|]); (split; [|done]);
    repeat (apply Forall_cons; split; [by rewrite prefix_append|]);
    apply Forall_nil_2.
Qed.

End EngineAttestation.

(** ** The engine: the flow of an attestation *)
Section EngineFlow.
Import SigstoreCache Sigstore.
Context `{L : Imports}.
Implicit Types (sigstore : Sigstoreimpl) (ref : Reference).

Lemma renderSelectors_shape (value : slice SelectorsFromSignatures) (containerID : string) :
  renderSelectors value containerID = None
  \/ last (elems (renderSelectors value containerID)) = Some signatureVerifiedSelector.
Proof.
  unfold renderSelectors. destruct (decide (0 < len value)%nat) as [Hlen|Hlen]; [|by left].
  right. unfold append at 1.
  destruct (append None _) as [strings|]; simpl; [by rewrite last_snoc|done].
Qed.

(** An attestation that returns an error returns no selector, leaves the
    cache as it was, and the error is the one of FetchImageSignatures; one
    that returns no error returns no selector at all or a list that ends
    with the verification selector. *)
Theorem attestation_result_shape sigstore (status : ContainerStatus)
    (out : slice string) (err : option error)
    (cache' : Cacheimpl (slice SelectorsFromSignatures)) :
  AttestContainerSignatures sigstore status = Returns (out, err, cache') ->
  (forall e, err = Some e ->
     out = None /\ cache' = sigstorecache sigstore
     /\ exists sigs, FetchImageSignatures sigstore (ImageID status) = (sigs, Some e))
  /\ (err = None ->
      out = None \/ last (elems out) = Some signatureVerifiedSelector).
Proof.
  unfold AttestContainerSignatures.
  destruct (ShouldSkipImage sigstore (ImageID status)) as [[] skipErr].
  { intros; simplify_eq. split; [done|]. intros _. by right. }
  unfold GetSignature.
  destruct (getElement (sigstorecache sigstore) (ImageID status)) as [e|].
  { intros H. injection H as <- <- <-. split; [done|]. intros _.
    apply renderSelectors_shape. }
  destruct (FetchImageSignatures sigstore (ImageID status)) as [sigs [e|]] eqn:Hf.
  { intros; simplify_eq. split; [|done]. intros e' ?; simplify_eq. by eauto. }
  destruct (ExtractSelectorsFromSignatures sigstore sigs (ContainerID status))
    as [selectors|]; [|done]. simpl.
  destruct (PutSignature _ _) as [c2|]; [|done]. simpl.
  intros H. injection H as <- <- <-. split; [done|]. intros _.
  apply renderSelectors_shape.
Qed.

(** A cached image is attested from the cache alone: engines that share
    the cache and the skip list give the same result, whatever their
    verify and fetch functions, allow lists and rekor URLs are, and for an
    image that is not skipped the result is the rendering of the cached
    selectors, with the entry moved to the front of the cache. *)
Theorem cache_hit_bypasses_fetch_and_policy sigstore (status : ContainerStatus)
    (e : list_.Element (Item (slice SelectorsFromSignatures))) :
  getElement (sigstorecache sigstore) (ImageID status) = Some e ->
  (forall other,
      sigstorecache other = sigstorecache sigstore ->
      skippedImages other = skippedImages sigstore ->
      AttestContainerSignatures other status = AttestContainerSignatures sigstore status)
  /\ ((ShouldSkipImage sigstore (ImageID status)).1 = false ->
      AttestContainerSignatures sigstore status
      = Returns (renderSelectors (Value e.2) (ContainerID status), None,
                 {| size := size (sigstorecache sigstore);
                    items := e.2 :: delete e.1 (items (sigstorecache sigstore)) |})).
Proof.
  intros He. split.
  - intros other Hc Hs. unfold AttestContainerSignatures, ShouldSkipImage, GetSignature.
    rewrite Hc, Hs, He. done.
  - unfold AttestContainerSignatures, GetSignature. rewrite He.
    destruct (ShouldSkipImage sigstore (ImageID status)) as [[] skipErr]; [done|].
    done.
Qed.


(** An image named by tag is never fetched: FetchImageSignatures fails at
    the validation of the reference, and the verify function plays no
    part. *)
Theorem tag_reference_is_never_verified sigstore (imageName : string) (t : name_Tag) :
  name_ParseReference imageName = Ok (RefTag t) ->
  (exists e, FetchImageSignatures sigstore imageName
             = (None, Some (errors_New
                              ("Could not validate image reference digest: " +:+ e))))
  /\ forall verify,
       FetchImageSignatures
         {| verifyFunction := verify;
            fetchImageManifestFunction := fetchImageManifestFunction sigstore;
            skippedImages := skippedImages sigstore;
            allowListEnabled := allowListEnabled sigstore;
            subjectAllowList := subjectAllowList sigstore;
            rekorURL := rekorURL sigstore;
            sigstorecache := sigstorecache sigstore |} imageName
       = FetchImageSignatures sigstore imageName.
Proof.
  intros Hp.
  assert (exists e, ValidateImage sigstore (RefTag t) = (false, Some e)) as [e He].
  { destruct (ValidateImage_error_or_true sigstore (RefTag t)) as [H|H]; [|done].
    unfold ValidateImage in H.
    destruct (fetchImageManifestFunction sigstore (RefTag t)) as [desc|e]; [|done].
    destruct (Manifest desc) as [m|]; [|done].
    by destruct (v1_SHA256 m). }
  split.
  - exists e. unfold FetchImageSignatures. by rewrite Hp, He.
  - intros verify. unfold FetchImageSignatures. rewrite Hp.
    change (ValidateImage {| verifyFunction := verify;
                             fetchImageManifestFunction := fetchImageManifestFunction sigstore;
                             skippedImages := skippedImages sigstore;
                             allowListEnabled := allowListEnabled sigstore;
                             subjectAllowList := subjectAllowList sigstore;
                             rekorURL := rekorURL sigstore;
                             sigstorecache := sigstorecache sigstore |} (RefTag t))
      with (ValidateImage sigstore (RefTag t)).
    by rewrite He.
Qed.

End EngineFlow.

(** ** The engine: the rekor URL, the bundle and the subject of a URI *)
Section EngineDetails.
Import SigstoreCache Sigstore.
Context `{L : Imports}.
Implicit Types (sigstore : Sigstoreimpl) (ref : Reference).

(** A URL that SetRekorURL accepts is stored, and the verifier is then
    given a rekor client for the host and the path of that URL, with the
    default schemes: the scheme, the user, the query and the fragment of
    the URL are not passed on. *)
Theorem SetRekorURL_configures_verifier sigstore (rekorURL : string) (u : URL) :
  rekorURL <> "" -> url_Parse rekorURL = Ok u ->
  Scheme u = "" \/ Scheme u = "https" -> Host u <> "" ->
  SetRekorURL sigstore rekorURL = (None, with_rekorURL sigstore u)
  /\ RekorClient (checkOpts (SetRekorURL sigstore rekorURL).2)
     = {| tc_Host := Host u; tc_BasePath := Path u;
          tc_Schemes := tc_Schemes rekor_DefaultTransportConfig |}
  /\ forall u', Host u' = Host u -> Path u' = Path u ->
                checkOpts (with_rekorURL sigstore u')
                = checkOpts (SetRekorURL sigstore rekorURL).2.
Proof.
  intros Hne Hp Hs Hh.
  assert (SetRekorURL sigstore rekorURL = (None, with_rekorURL sigstore u)) as Hset.
  { unfold SetRekorURL. rewrite Hp.
    destruct (decide (rekorURL = "")); [done|].
    destruct (decide (Scheme u <> "" /\ Scheme u <> "https")) as [[H1 H2]|_];
      [by destruct Hs|].
    by destruct (decide (Host u = "")). }
  rewrite Hset. split; [done|]. split; [done|].
  intros u' Hhost Hpath. unfold checkOpts. simpl. by rewrite Hhost, Hpath.
Qed.

(** getBundleSignatureContent returns a content that is not empty exactly
    when it returns no error, and the content is then the signature content
    of the decoded body of the bundle. *)
Theorem getBundleSignatureContent_content (bundle : option oci_Bundle) :
  ((getBundleSignatureContent bundle).2 = None
   <-> (getBundleSignatureContent bundle).1 <> "")
  /\ (forall content,
        getBundleSignatureContent bundle = (content, None) ->
        exists b body64 body bundlebody,
          bundle = Some b
          /\ Body (bundle_Payload b) = AnyString body64
          /\ base64_DecodeString body64 = Ok body
          /\ json_Unmarshal_BundleBody body = Ok bundlebody
          /\ content = Content (spec_Signature (Spec bundlebody)))
  /\ getBundleSignatureContent None = ("", Some (errors_New "Bundle is nil")).
Proof.
  split; [|split; [|done]].
  - unfold getBundleSignatureContent. destruct bundle as [b|]; [|done].
    destruct (Body (bundle_Payload b)); try done.
    destruct (base64_DecodeString s) as [body|]; [|done].
    destruct (json_Unmarshal_BundleBody body) as [bb|]; [|done].
    by destruct (decide (Content (spec_Signature (Spec bb)) = "")).
  - intros content. unfold getBundleSignatureContent. destruct bundle as [b|]; [|done].
    destruct (Body (bundle_Payload b)) eqn:Hb; try done.
    destruct (base64_DecodeString s) as [body|] eqn:Hd; [|done].
    destruct (json_Unmarshal_BundleBody body) as [bb|] eqn:Hu; [|done].
    destruct (decide (Content (spec_Signature (Spec bb)) = "")); [done|].
    intros; simplify_eq. by exists b, s, body, bb.
Qed.

Lemma trimLeadingSlashes_suffix (s : string) :
  exists n, s = string_of_list_ascii (replicate n "/"%char) +:+ trimLeadingSlashes s.
Proof.
  induction s as [|a s [n IH]]; [by exists 0%nat|].
  destruct (Ascii.ascii_dec a "/") as [->|Hne].
  - exists (S n). exact (f_equal (String "/"%char) IH).
  - exists 0%nat. simpl. destruct a as [[] [] [] [] [] [] [] []]; done.
Qed.

(** The subject taken from the first URI of a certificate is the text of
    the URI after its leading slashes: it never starts with a slash. *)
Theorem uri_subject_has_no_leading_slash (c : Certificate) (uri : URL)
    (others : list URL) :
  EmailAddresses c = None -> URIs c = Some (uri :: others) ->
  exists subject n,
    certSubject (Some c) = Returns subject
    /\ URL_String uri = string_of_list_ascii (replicate n "/"%char) +:+ subject
    /\ forall rest, subject <> String "/" rest.
Proof.
  intros He Hu. destruct (trimLeadingSlashes_suffix (URL_String uri)) as [n Hn].
  exists (trimLeadingSlashes (URL_String uri)), n.
  split; [|split; [done|]].
  - unfold certSubject. by rewrite He, Hu.
  - intros rest. apply trimLeadingSlashes_trimmed.
Qed.

End EngineDetails.

(** ** The first version: the subject of a list of signed payloads *)
Section PayloadSubject.
Import SigstorePayload.
Context `{L : Imports}.

Lemma removeBraces_append (a b : string) :
  removeBraces (a +:+ b) = removeBraces a +:+ removeBraces b.
Proof.
  induction a as [|x a IH]; [done|]. simpl.
  destruct ((x =? "{")%char || (x =? "}")%char); simpl; by rewrite IH.
Qed.

Lemma append_empty_r (s : string) : s +:+ "" = s.
Proof. induction s as [|x s IH]; [done|]. exact (f_equal (String x) IH). Qed.

Lemma removeBraces_no_brace (s : string) :
  Forall (fun x => x <> "{"%char /\ x <> "}"%char) (list_ascii_of_string (removeBraces s)).
Proof.
  induction s as [|x s IH]; [constructor|]. simpl.
  destruct (Ascii.eqb_spec x "{"); [done|].
  destruct (Ascii.eqb_spec x "}"); [done|]. simpl. by constructor.
Qed.

(** getOnlySubject returns the subject of the first entry of the decoded
    payload with every brace removed, those of the subject itself as well
    as those of the formatting; a payload that does not decode gives the
    empty subject. *)
Theorem getOnlySubject_first_subject (payload : string) :
  (forall first rest,
      json_Unmarshal_Optionals payload = Ok (Some (first :: rest)) ->
      getOnlySubject payload
      = Returns (removeBraces (subject_Subject (optional_Optional first))))
  /\ (forall e, json_Unmarshal_Optionals payload = Err e ->
                getOnlySubject payload = Returns "")
  /\ (forall subject, getOnlySubject payload = Returns subject ->
        Forall (fun x => x <> "{"%char /\ x <> "}"%char) (list_ascii_of_string subject)).
Proof.
  unfold getOnlySubject. split; [|split].
  - intros first rest ->. simpl. unfold Sprintf_s.
    rewrite !removeBraces_append. f_equal.
    exact (append_empty_r (removeBraces (subject_Subject (optional_Optional first)))).
  - by intros e ->.
  - intros subject. destruct (json_Unmarshal_Optionals payload) as [selector|e].
    + destruct selector as [[|first rest]|]; simpl; try done.
      intros; simplify_eq. apply removeBraces_no_brace.
    + intros; simplify_eq. constructor.
Qed.

End PayloadSubject.

(** ** The further properties on concrete inputs *)
Section MoreExamples.
Import SigstoreCache Sigstore Samples.

Lemma keys_stay_distinct_witness :
  NoDup (Key <$> [item3; item1]).
Proof.
  exact (keys_stay_distinct 2
           [CallPut item1; CallPut item2; CallPut item1; CallPut item3; CallPut item4]
           {| size := 2; items := [item3; item1] |} eq_refl).
Defined.

Lemma new_key_is_found_after_put_witness :
  exists c',
    PutSignature {| size := 2; items := [item1] |} item2 = Returns c'
    /\ head (items c') = Some item2
    /\ (GetSignature c' "signature2").1 = Some item2
    /\ within_capacity c'.
Proof.
  apply (new_key_is_found_after_put {| size := 2; items := [item1] |} item2).
  - simpl. lia.
  - unfold within_capacity. simpl. unfold list_.Len. simpl. lia.
  - reflexivity.
Defined.

Lemma eviction_removes_only_the_back_witness :
  exists c',
    PutSignature {| size := 2; items := [item2; item1] |} item3 = Returns c'
    /\ (GetSignature c' "signature1").1 = None
    /\ (GetSignature c' "signature3").1 = Some item3
    /\ forall k, k <> "signature1" -> k <> "signature3" ->
                 (GetSignature c' k).1
                 = (GetSignature {| size := 2; items := [item2; item1] |} k).1.
Proof.
  apply (eviction_removes_only_the_back {| size := 2; items := [item2; item1] |}
           item3 [item2] item1).
  - apply (bool_decide_unpack _). vm_compute. exact I.
  - reflexivity.
  - reflexivity.
  - reflexivity.
Defined.

Lemma looked_up_key_survives_next_put_witness :
  exists c',
    PutSignature (GetSignature {| size := 2; items := [item2; item1] |} "signature1").2
      item3 = Returns c'
    /\ (GetSignature c' "signature1").1 = Some item1.
Proof.
  apply (looked_up_key_survives_next_put {| size := 2; items := [item2; item1] |}
           "signature1" (1%nat, item1) item3).
  - simpl. lia.
  - reflexivity.
  - reflexivity.
Defined.

Lemma negative_capacity_never_evicts_witness :
  PutAll (NewCache (-1)) [item1; item2; item3]
  = Returns {| size := -1; items := [item3; item2; item1] |}.
Proof.
  apply (negative_capacity_never_evicts (-1) [item1; item2; item3]).
  - lia.
  - apply (bool_decide_unpack _). vm_compute. exact I.
Defined.

Lemma skip_list_round_trip_witness :
  ShouldSkipImage (AddSkippedImage (engine None true None) "img") "img" = (true, None).
Proof.
  refine (proj1 (skip_list_round_trip (engine None true None) "img" _)). done.
Defined.

Lemma verified_iff_subject_witness :
  Verified (selectors_of "b@x.com") = true <-> sel_Subject (selectors_of "b@x.com") <> "".
Proof.
  refine (proj1 (verified_iff_subject (engine None true None)
                   (Some (signature_of (payload_with_subject "a@x.com")
                                       (Some (cert_with_email "b@x.com"))))
                   "c1" (selectors_of "b@x.com") _)).
  vm_compute. reflexivity.
Defined.

Lemma allowed_subject_passes_witness :
  SelectorValuesFromSignature
    (EnableAllowSubjectList (AddAllowedSubject (engine None true None) "b@x.com") true)
    (Some (signature_of (payload_with_subject "a@x.com") (Some (cert_with_email "b@x.com"))))
    "c1"
  = SelectorValuesFromSignature (EnableAllowSubjectList (engine None true None) false)
      (Some (signature_of (payload_with_subject "a@x.com")
                          (Some (cert_with_email "b@x.com")))) "c1".
Proof.
  refine (proj2 (allowed_subject_passes (engine None true None) _ "c1" "b@x.com" _)).
  vm_compute. reflexivity.
Defined.

Lemma attestation_result_shape_witness :
  exists sigs,
    FetchImageSignatures (engine (Some []) true None) image_by_tag
    = (sigs, Some (errors_New
         "Could not validate image reference digest: Reference registry/img:latest is not a digest")).
Proof.
  refine (proj2 (proj2 (proj1 (attestation_result_shape (engine (Some []) true None)
                                 {| ImageID := image_by_tag; ContainerID := "c1" |}
                                 None _ (NewCache 10) _) _ eq_refl))).
  vm_compute. reflexivity.
Defined.

Lemma cache_hit_bypasses_fetch_and_policy_witness :
  AttestContainerSignatures (engine_with_cached "spirex@example.com")
    {| ImageID := image_by_digest; ContainerID := "c1" |}
  = Returns (Some ["c1:image-signature-subject:spirex@example.com";
                   "sigstore-validation:passed"], None,
             {| size := 10;
                items := [{| Key := image_by_digest;
                             Value := Some [selectors_of "spirex@example.com"] |};
                          {| Key := "registry/other@sha256:00"; Value := None |}] |}).
Proof.
  refine (proj2 (cache_hit_bypasses_fetch_and_policy (engine_with_cached "spirex@example.com")
                   {| ImageID := image_by_digest; ContainerID := "c1" |}
                   (1%nat, {| Key := image_by_digest;
                              Value := Some [selectors_of "spirex@example.com"] |}) _) _).
  - vm_compute. reflexivity.
  - reflexivity.
Defined.


Lemma tag_reference_is_never_verified_witness :
  exists e,
    FetchImageSignatures (engine (Some []) true None) image_by_tag
    = (None, Some (errors_New ("Could not validate image reference digest: " +:+ e))).
Proof.
  refine (proj1 (tag_reference_is_never_verified (engine (Some []) true None) image_by_tag
                   {| TagStr := "latest"; tag_original := image_by_tag |} _)).
  vm_compute. reflexivity.
Defined.

Lemma SetRekorURL_configures_verifier_witness :
  RekorClient (checkOpts (SetRekorURL (engine None true None)
                            "https://rekor.example.com/api").2)
  = {| tc_Host := "rekor.example.com"; tc_BasePath := "/api"; tc_Schemes := ["http"] |}.
Proof.
  refine (proj1 (proj2 (SetRekorURL_configures_verifier (engine None true None)
                          "https://rekor.example.com/api"
                          {| Scheme := "https"; User := None; Host := "rekor.example.com";
                             Path := "/api"; RawQuery := ""; Fragment := "" |} _ _ _ _))).
  - done.
  - vm_compute. reflexivity.
  - by right.
  - done.
Defined.

Lemma uri_subject_has_no_leading_slash_witness :
  exists subject n,
    certSubject (Some (cert_with_uri (uri_of_user "example" "example2.com")))
    = Returns subject
    /\ URL_String (uri_of_user "example" "example2.com")
       = string_of_list_ascii (replicate n "/"%char) +:+ subject
    /\ forall rest, subject <> String "/" rest.
Proof.
  exact (uri_subject_has_no_leading_slash
           (cert_with_uri (uri_of_user "example" "example2.com"))
           (uri_of_user "example" "example2.com") [] eq_refl eq_refl).
Defined.

(** The certificate of the package's test certSubject_from_single_URI. *)
Example certSubject_from_single_URI :
  certSubject (Some (cert_with_uri (uri_of_user "example" "example2.com")))
  = Returns "example@example2.com".
Proof. vm_compute. reflexivity. Qed.

End MoreExamples.

(** ** The version with a skip list of selectors *)
Section SkipListVersion.
Import SigstoreSkipList.
Context `{L : Imports}.

(** In this version the validation of the reference rejects nothing once
    the manifest is fetched and hashed: ValidateImage returns no error for
    a tag and for a digest that differs from the hash, and
    FetchImageSignatures, which reads the error alone, returns what the
    verify function returns for the reference. *)
Theorem unvalidated_reference_is_verified (sigstore : Sigstoreimpl)
    (imageName rekorURL : string) (ref : Reference) (desc : Descriptor) (h : Hash)
    (client : TransportConfig) :
  name_ParseReference imageName = Ok ref ->
  validateImageRefFunction sigstore = ValidateImage ->
  remote_Get ref = Ok desc ->
  v1_SHA256 (elems (Manifest desc)) = Ok h ->
  rekorClient rekorURL = Ok client ->
  (ValidateImage ref).2 = None
  /\ ((ValidateImage ref).1 = true
      <-> exists d, ref = RefDigest d /\ DigestStr d = Hash_String h)
  /\ forall sigs,
       verifyFunction sigstore ref {| RekorClient := client; RootCerts := fulcio_GetRoots |}
       = (sigs, true, None) ->
       FetchImageSignatures sigstore imageName rekorURL = (sigs, None).
Proof.
  intros Hp Hv Hg Hh Hc.
  assert (ValidateImage ref = validateRefDigest ref (Hash_String h)) as Hval.
  { unfold ValidateImage. by rewrite Hg, Hh. }
  assert ((validateRefDigest ref (Hash_String h)).2 = None) as Hnone.
  { unfold validateRefDigest. destruct ref as [t|d]; [done|].
    by destruct (decide (DigestStr d = Hash_String h)). }
  rewrite Hval. split; [done|]. split.
  - unfold validateRefDigest. destruct ref as [t|d].
    + split; [done|]. by intros (d & ? & _).
    + destruct (decide (DigestStr d = Hash_String h)) as [Hd|Hd]; simpl.
      * split; [|done]. intros _. by exists d.
      * split; [done|]. intros (d' & ? & ?). by simplify_eq.
  - intros sigs Hverify. unfold FetchImageSignatures. rewrite Hp, Hv, Hval.
    destruct (validateRefDigest ref (Hash_String h)) as [b e]. simpl in Hnone.
    rewrite Hnone, Hc, Hverify. done.
Qed.

(** AddSkippedImage panics on the engine New makes, whose skip list is the
    nil map; on an engine with a map, the image is then answered by
    SkipImage with the selectors it was added with, other images are
    answered as before, and after ClearSkipList no image is answered. *)
Theorem skipped_selectors_round_trip (sigstore : Sigstoreimpl) (imageHash : string)
    (selectors : slice string) :
  AddSkippedImage New imageHash selectors = Panics "assignment to entry in nil map"
  /\ (forall skipped,
        skippedImages sigstore = Some skipped ->
        exists sigstore',
          AddSkippedImage sigstore imageHash selectors = Returns sigstore'
          /\ (forall containerID,
                SkipImage sigstore' {| ImageID := imageHash; ContainerID := containerID |}
                = (selectors, None))
          /\ (forall status, ImageID status <> imageHash ->
                SkipImage sigstore' status = SkipImage sigstore status)
          /\ (forall status, SkipImage (ClearSkipList sigstore') status = (None, None))).
Proof.
  split; [done|]. intros skipped Hs. unfold AddSkippedImage. rewrite Hs.
  eexists. split; [done|]. unfold SkipImage, ClearSkipList. simpl.
  split; [|split].
  - intros _. by rewrite lookup_insert_eq.
  - intros status Hne. rewrite Hs. by rewrite lookup_insert_ne.
  - intros status. by rewrite lookup_empty.
Qed.

End SkipListVersion.

(** ** The version that fetches signature payloads *)
Section PayloadVersion.
Import SigstoreSignatures.
Context `{L : Imports}.

(** FetchSignaturePayload panics where it means to report a reference that
    is not validated: for a tag, and for a digest that differs from the
    hash of the fetched manifest, validateImage returns false with a nil
    error, and the message is built from that error. *)
Theorem FetchSignaturePayload_panics_on_unvalidated_reference (sigstore : Sigstoreimpl)
    (imageName rekorURL : string) (ref : Reference) (desc : Descriptor) (h : Hash) :
  name_ParseReference imageName = Ok ref ->
  remote_Get ref = Ok desc ->
  v1_SHA256 (elems (Manifest desc)) = Ok h ->
  (forall d, ref = RefDigest d -> DigestStr d <> Hash_String h) ->
  validateImage ref = (false, None)
  /\ FetchSignaturePayload sigstore imageName rekorURL = Panics nil_dereference.
Proof.
  intros Hp Hg Hh Hd.
  assert (validateImage ref = (false, None)) as Hval.
  { unfold validateImage. rewrite Hg, Hh. unfold validateRefDigest.
    destruct ref as [t|d]; [done|].
    destruct (decide (DigestStr d = Hash_String h)) as [Heq|_]; [|done].
    by destruct (Hd d eq_refl). }
  split; [done|]. unfold FetchSignaturePayload. by rewrite Hp, Hval.
Qed.

(** FetchSignaturePayload panics as well where it means to report a bundle
    that is not verified: when the verify function returns verified = false
    with a nil error for a validated reference, the message is built from
    that nil error. *)
Theorem FetchSignaturePayload_panics_on_unverified_bundle (sigstore : Sigstoreimpl)
    (imageName rekorURL : string) (ref : Reference) (rekorURI : URL)
    (sigs : slice (option Signature)) :
  name_ParseReference imageName = Ok ref ->
  validateImage ref = (true, None) ->
  url_Parse rekorURL = Ok rekorURI ->
  Scheme rekorURI = "" \/ Scheme rekorURI = "http" \/ Scheme rekorURI = "https" ->
  verifyFunction sigstore ref
    {| RekorClient := {| tc_Host := Host rekorURI; tc_BasePath := Path rekorURI;
                         tc_Schemes := [Scheme rekorURI] |};
       RootCerts := fulcio_GetRoots |}
  = (sigs, false, None) ->
  FetchSignaturePayload sigstore imageName rekorURL = Panics nil_dereference.
Proof.
  intros Hp Hval Hu Hs Hv. unfold FetchSignaturePayload. rewrite Hp, Hval, Hu. simpl.
  destruct (decide (Scheme rekorURI <> "" /\ Scheme rekorURI <> "http"
                    /\ Scheme rekorURI <> "https")) as [(H1 & H2 & H3)|_].
  { by destruct Hs as [?|[?|?]]. }
  by rewrite Hv.
Qed.

End PayloadVersion.

(** ** The first version: one payload that does not decode *)
Section PayloadList.
Import SigstorePayload.
Context `{L : Imports}.

Lemma decodeAll_undecodable (before after : list SignedPayload) (vp : SignedPayload)
    (e : error) :
  Forall (fun p => sp_Cert p = None
                   /\ exists ss, json_Unmarshal_SimpleContainerImage (sp_Payload p) = Ok ss)
         before ->
  json_Unmarshal_SimpleContainerImage (sp_Payload vp) = Err e ->
  forall outputKeys, decodeAll (before ++ vp :: after) outputKeys = Returns None.
Proof.
  intros Hb He. induction Hb as [|p before [Hc [ss Hss]] _ IH]; intros outputKeys; simpl.
  - by rewrite He.
  - rewrite Hss, Hc. simpl. apply IH.
Qed.

(** In the first version one payload that does not decode empties the
    selector of the whole list: whatever the payloads before and after it
    hold, the subject is empty. *)
Theorem undecodable_payload_empties_selector (before after : list SignedPayload)
    (vp : SignedPayload) (e : error) :
  Forall (fun p => sp_Cert p = None
                   /\ exists ss, json_Unmarshal_SimpleContainerImage (sp_Payload p) = Ok ss)
         before ->
  json_Unmarshal_SimpleContainerImage (sp_Payload vp) = Err e ->
  ExtractselectorOfSignedImage (Some (before ++ vp :: after)) = Returns "".
Proof.
  intros Hb He. unfold ExtractselectorOfSignedImage, getSubjectImage. simpl.
  by rewrite (decodeAll_undecodable before after vp e Hb He).
Qed.

End PayloadList.

(** ** The versions on concrete inputs *)
Section VariantExamples.
Import Samples VariantSamples.

Lemma unvalidated_reference_is_verified_witness :
  @SigstoreSkipList.FetchImageSignatures registry_imports
    (skip_list_engine None one_signature true None) image_by_tag ""
  = (one_signature, None).
Proof.
  refine (proj2 (proj2 (@unvalidated_reference_is_verified registry_imports
                          (skip_list_engine None one_signature true None)
                          image_by_tag "" tag_reference
                          {| Manifest := Some manifest |} _ _ _ _ _ _ _))
                one_signature _).
  - vm_compute. reflexivity.
  - reflexivity.
  - reflexivity.
  - vm_compute. reflexivity.
  - vm_compute. reflexivity.
  - reflexivity.
Defined.

Lemma skipped_selectors_round_trip_witness :
  exists sigstore',
    SigstoreSkipList.AddSkippedImage (skip_list_engine (Some ∅) None true None)
      "sha256:sampleimagehash" (Some ["image-signature-subject:sampleimage"])
    = Returns sigstore'
    /\ SigstoreSkipList.SkipImage sigstore'
         {| ImageID := "sha256:sampleimagehash"; ContainerID := "000000" |}
       = (Some ["image-signature-subject:sampleimage"], None).
Proof.
  destruct (proj2 (@skipped_selectors_round_trip registry_imports
                     (skip_list_engine (Some ∅) None true None)
                     "sha256:sampleimagehash"
                     (Some ["image-signature-subject:sampleimage"]))
                  ∅ eq_refl) as (sigstore' & Hadd & Hskip & _).
  exists sigstore'. split; [exact Hadd | exact (Hskip "000000")].
Defined.

Lemma FetchSignaturePayload_panics_on_unvalidated_reference_witness :
  @SigstoreSignatures.FetchSignaturePayload registry_imports
    (payload_engine one_signature true None) image_by_tag ""
  = Panics nil_dereference.
Proof.
  refine (proj2 (@FetchSignaturePayload_panics_on_unvalidated_reference registry_imports
                   (payload_engine one_signature true None) image_by_tag ""
                   tag_reference {| Manifest := Some manifest |} _ _ _ _ _)).
  - vm_compute. reflexivity.
  - reflexivity.
  - vm_compute. reflexivity.
  - intros d Hd. discriminate Hd.
Defined.

Lemma FetchSignaturePayload_panics_on_unverified_bundle_witness :
  @SigstoreSignatures.FetchSignaturePayload registry_imports
    (payload_engine one_signature false None) image_by_digest "https://rekor.example.com"
  = Panics nil_dereference.
Proof.
  refine (@FetchSignaturePayload_panics_on_unverified_bundle registry_imports
            (payload_engine one_signature false None) image_by_digest
            "https://rekor.example.com" digest_reference _ one_signature _ _ _ _ _).
  - vm_compute. reflexivity.
  - vm_compute. reflexivity.
  - vm_compute. reflexivity.
  - right. right. reflexivity.
  - reflexivity.
Defined.

Lemma undecodable_payload_empties_selector_witness :
  SigstorePayload.ExtractselectorOfSignedImage
    (Some ([{| SigstorePayload.sp_Payload := payload_with_subject "hpe@hpe.com";
               SigstorePayload.sp_Cert := None |}]
           ++ {| SigstorePayload.sp_Payload := []; SigstorePayload.sp_Cert := None |}
           :: []))
  = Returns "".
Proof.
  refine (undecodable_payload_empties_selector
            [{| SigstorePayload.sp_Payload := payload_with_subject "hpe@hpe.com";
                SigstorePayload.sp_Cert := None |}] []
            {| SigstorePayload.sp_Payload := []; SigstorePayload.sp_Cert := None |} _ _ _).
  - apply Forall_cons. split; [|apply Forall_nil_2].
    split; [reflexivity|]. eexists. vm_compute. reflexivity.
  - vm_compute. reflexivity.
Defined.

End VariantExamples.
